(** * The forum scraper of the bot: profile extraction, post location and
      the new-post detector.

    Shallow embedding of [GetUserProfilePage], its field extractors,
    [getLatestPost] and the polling loop of [newPostAlert], together with the
    properties that the specification states about them.

    Go strings are byte strings: they are modelled by [string] (a list of
    8-bit [ascii]).  Go's [int] is modelled by [Z]; the only arithmetic the
    program does on it is comparison, and [Atoi] keeps the 64-bit range.
    A Go function returning [(value, error)] returns a pair whose second
    component is an [option error] ([None] for [nil]): the value is kept
    next to the error because [newPostAlert] reads it in both cases.
    A run-time panic (index or slice out of range, [MustCompile] on a
    malformed expression) is an explicit outcome, [Panic]. *)

From Stdlib Require Import ZArith Lia Bool List String Ascii Sorted.
From Stdlib Require DecimalString DecimalNat.
Import ListNotations.

Local Open Scope string_scope.
Local Open Scope Z_scope.

(** ** Outcomes: a call returns or panics *)

Inductive panic : Type :=
| IndexOutOfRange (index len : Z)
| SliceOutOfRange (low len : Z)
| CompileFailed (expression : string).

Inductive exec (A : Type) : Type :=
| Done (a : A)
| Panic (p : panic).

Arguments Done {A} a.
Arguments Panic {A} p.

Definition bind {A B : Type} (m : exec A) (k : A -> exec B) : exec B :=
  match m with
  | Done a => k a
  | Panic p => Panic p
  end.

Notation "x <- m ;; k" := (bind m (fun x => k))
  (at level 61, m at next level, right associativity).
Notation "' pat <- m ;; k" := (bind m (fun x => match x with pat => k end))
  (at level 61, pat pattern, m at next level, right associativity).

Definition returns {A : Type} (m : exec A) : Prop := exists a, m = Done a.

(** ** Errors ([github.com/pkg/errors] and [strconv.NumError]) *)

Inductive error : Type :=
| New (message : string)
| Wrap (cause : error) (message : string)
| NumError (func num reason : string)
| Failure (description : string).

(** ** The functions of Go's [strings] and [strconv] that the scraper calls *)

Definition dq : string := String (ascii_of_nat 34) EmptyString.
Definition nl : string := String (ascii_of_nat 10) EmptyString.

Definition len (s : string) : Z := Z.of_nat (String.length s).

Fixpoint HasPrefix (s prefix : string) {struct prefix} : bool :=
  match prefix, s with
  | EmptyString, _ => true
  | String p prefix', String c s' => Ascii.eqb p c && HasPrefix s' prefix'
  | String _ _, EmptyString => false
  end.

Fixpoint skip (n : nat) (s : string) : string :=
  match n, s with
  | O, _ => s
  | S n', String _ s' => skip n' s'
  | S _, EmptyString => EmptyString
  end.

(** [strings.TrimPrefix]. *)
Definition TrimPrefix (s prefix : string) : string :=
  if HasPrefix s prefix then skip (String.length prefix) s else s.

(** [strings.Index]: byte offset of the first occurrence, or [-1]. *)
Fixpoint Index (s substr : string) : Z :=
  if HasPrefix s substr then 0
  else match s with
       | EmptyString => -1
       | String _ s' =>
           let i := Index s' substr in
           if i =? -1 then -1 else i + 1
       end.

(** [strings.Replace s old new -1] for a non-empty [old]: [pending] counts
    the bytes of a matched [old] that are still to be dropped. *)
Fixpoint Replace_from (pending : nat) (s old new : string) : string :=
  match s with
  | EmptyString => EmptyString
  | String c s' =>
      match pending with
      | S k => Replace_from k s' old new
      | O =>
          if HasPrefix s old
          then new ++ Replace_from (String.length old - 1) s' old new
          else String c (Replace_from 0 s' old new)
      end
  end.

Definition Replace (s old new : string) : string := Replace_from 0 s old new.

(** [strings.Split s sep] for a non-empty [sep]: [cur] is the piece being
    read. *)
Fixpoint Split_from (pending : nat) (cur s sep : string) : list string :=
  match s with
  | EmptyString => [cur]
  | String c s' =>
      match pending with
      | S k => Split_from k cur s' sep
      | O =>
          if HasPrefix s sep
          then cur :: Split_from (String.length sep - 1) EmptyString s' sep
          else Split_from 0 (cur ++ String c EmptyString) s' sep
      end
  end.

Definition Split (s sep : string) : list string :=
  Split_from 0 EmptyString s sep.

Fixpoint mem (c : ascii) (cutset : string) : bool :=
  match cutset with
  | EmptyString => false
  | String d cutset' => Ascii.eqb c d || mem c cutset'
  end.

Fixpoint TrimLeft (s cutset : string) : string :=
  match s with
  | EmptyString => EmptyString
  | String c s' => if mem c cutset then TrimLeft s' cutset else s
  end.

Fixpoint TrimRight (s cutset : string) : string :=
  match s with
  | EmptyString => EmptyString
  | String c s' =>
      match TrimRight s' cutset with
      | EmptyString => if mem c cutset then EmptyString else String c EmptyString
      | rest => String c rest
      end
  end.

(** [strings.Trim]. *)
Definition Trim (s cutset : string) : string :=
  TrimRight (TrimLeft s cutset) cutset.

(** [s[low:]]: a run-time panic when [low] is outside [0..len(s)]. *)
Definition slice_from (s : string) (low : Z) : exec string :=
  if (low <? 0) || (len s <? low) then Panic (SliceOutOfRange low (len s))
  else Done (skip (Z.to_nat low) s).

(** [a[i]] on a slice of strings: a run-time panic when [i] is out of
    range. *)
Definition at_index (a : list string) (i : Z) : exec string :=
  if (i <? 0) || (Z.of_nat (List.length a) <=? i)
  then Panic (IndexOutOfRange i (Z.of_nat (List.length a)))
  else Done (nth (Z.to_nat i) a EmptyString).

Definition is_digit (c : ascii) : bool :=
  let n := nat_of_ascii c in (48 <=? n)%nat && (n <=? 57)%nat.

Definition digit_value (c : ascii) : Z := Z.of_nat (nat_of_ascii c) - 48.

Fixpoint digits_value (acc : Z) (s : string) : option Z :=
  match s with
  | EmptyString => Some acc
  | String c s' =>
      if is_digit c then digits_value (acc * 10 + digit_value c) s' else None
  end.

Definition min_int : Z := - 2 ^ 63.
Definition max_int : Z := 2 ^ 63 - 1.

Definition syntax_error (s : string) : error :=
  NumError "Atoi" s "invalid syntax".
Definition range_error (s : string) : error :=
  NumError "Atoi" s "value out of range".

(** [strconv.Atoi] on a 64-bit platform: an optional sign, then one or more
    decimal digits, the value within the range of [int]. *)
Definition Atoi (s : string) : Z * option error :=
  let '(negative, body) :=
    match s with
    | String "-" rest => (true, rest)
    | String "+" rest => (false, rest)
    | _ => (false, s)
    end in
  match body with
  | EmptyString => (0, Some (syntax_error s))
  | _ =>
      match digits_value 0 body with
      | None => (0, Some (syntax_error s))
      | Some n =>
          let v := if negative then - n else n in
          if v <? min_int then (min_int, Some (range_error s))
          else if max_int <? v then (max_int, Some (range_error s))
          else (v, None)
      end
  end.

(** ** Data model *)

Module VisitorMessage.
Record t : Type := Build { UserName : string; Message : string }.
End VisitorMessage.

Record UserProfile : Type := {
  UserName : string;
  JoinDate : string;
  TotalPosts : Z;
  Reputation : Z;
  BioText : string;
  VisitorMessages : list VisitorMessage.t;
  Errors : list error
}.

(** [var result UserProfile]. *)
Definition zero_UserProfile : UserProfile :=
  {| UserName := ""; JoinDate := ""; TotalPosts := 0; Reputation := 0;
     BioText := ""; VisitorMessages := []; Errors := [] |}.

Definition set_UserName (v : string) (r : UserProfile) : UserProfile :=
  {| UserName := v; JoinDate := JoinDate r; TotalPosts := TotalPosts r;
     Reputation := Reputation r; BioText := BioText r;
     VisitorMessages := VisitorMessages r; Errors := Errors r |}.
Definition set_JoinDate (v : string) (r : UserProfile) : UserProfile :=
  {| UserName := UserName r; JoinDate := v; TotalPosts := TotalPosts r;
     Reputation := Reputation r; BioText := BioText r;
     VisitorMessages := VisitorMessages r; Errors := Errors r |}.
Definition set_TotalPosts (v : Z) (r : UserProfile) : UserProfile :=
  {| UserName := UserName r; JoinDate := JoinDate r; TotalPosts := v;
     Reputation := Reputation r; BioText := BioText r;
     VisitorMessages := VisitorMessages r; Errors := Errors r |}.
Definition set_Reputation (v : Z) (r : UserProfile) : UserProfile :=
  {| UserName := UserName r; JoinDate := JoinDate r; TotalPosts := TotalPosts r;
     Reputation := v; BioText := BioText r;
     VisitorMessages := VisitorMessages r; Errors := Errors r |}.
Definition set_BioText (v : string) (r : UserProfile) : UserProfile :=
  {| UserName := UserName r; JoinDate := JoinDate r; TotalPosts := TotalPosts r;
     Reputation := Reputation r; BioText := v;
     VisitorMessages := VisitorMessages r; Errors := Errors r |}.
Definition set_VisitorMessages (v : list VisitorMessage.t) (r : UserProfile)
  : UserProfile :=
  {| UserName := UserName r; JoinDate := JoinDate r; TotalPosts := TotalPosts r;
     Reputation := Reputation r; BioText := BioText r;
     VisitorMessages := v; Errors := Errors r |}.

(** [result.Errors = append(result.Errors, err)] under [if err != nil]. *)
Definition note (err : option error) (r : UserProfile) : UserProfile :=
  match err with
  | None => r
  | Some e =>
      {| UserName := UserName r; JoinDate := JoinDate r;
         TotalPosts := TotalPosts r; Reputation := Reputation r;
         BioText := BioText r; VisitorMessages := VisitorMessages r;
         Errors := Errors r ++ [e] |}
  end.

(** ** The expressions handed to [xmlpath.MustCompile] *)

Definition userNameExpr : string :=
  "//*[@id=" ++ dq ++ "username_box" ++ dq ++ "]/h1".
Definition joinDateExpr : string :=
  "//*[@id=" ++ dq ++ "collapseobj_stats" ++ dq
  ++ "]/div/*/ul/*[contains(.,'Join Date: ')]".
Definition totalPostsExpr : string :=
  "//*[@id=" ++ dq ++ "collapseobj_stats" ++ dq ++ "]/div/fieldset[1]/ul/li[1]".
Definition listingHrefExpr : string :=
  "//td[@class=" ++ dq ++ "alt1" ++ dq ++ "]/div[@class=" ++ dq ++ "alt2" ++ dq
  ++ "]/div/em/a/@href".
Definition reputationExpr (table : string) : string :=
  "//table[@id=" ++ dq ++ table ++ dq ++ "]/tbody/tr[@valign=" ++ dq ++ "top"
  ++ dq ++ "]/td[@class=" ++ dq ++ "alt2" ++ dq
  ++ "]/*/*[contains(text(),'Reputation: ')]".
Definition bioExpr : string :=
  "//*[@id=" ++ dq ++ "collapseobj_aboutme" ++ dq ++ "]/div/ul/li[1]/dl/dd[1]".
Definition mainExpr : string := "//*[@id=" ++ dq ++ "message_list" ++ dq ++ "]/*".
Definition userExpr : string := ".//div[2]/div[1]/div/a".
Definition textExpr : string := ".//div[2]/div[2]".
Definition titleExpr : string := "//em/a".
Definition hrefExpr : string := "//em/a/@href".
Definition postExpr (post : string) : string :=
  "//div[@id=" ++ dq ++ "post_message_" ++ post ++ dq ++ "]".

Definition memberURL : string := "http://forum.sa-mp.com/member.php?u=".
Definition finduserURL (id : string) : string :=
  "http://forum.sa-mp.com/search.php?do=finduser&u=" ++ id.
Definition forumURL (href : string) : string := "http://forum.sa-mp.com/" ++ href.

(** ** The scraper, over its collaborators

    The query evaluator ([gopkg.in/xmlpath.v2]) and the document fetcher
    ([app.GetHTMLRoot], which goes through the HTTP client of [app]) are not
    part of the program.  The evaluator is an interface: [Iter] lists the
    nodes that a compiled path matches from a context node, in document
    order; [Exists] and [PathString] are the library's two readings of that
    iteration.  The receiver [app] is what the program fetches pages with:
    it is an argument of the functions that fetch. *)

Class XMLPath : Type := {
  Node : Type;
  Path : Type;
  (** [xmlpath.Compile]: [None] for a malformed expression. *)
  Compile : string -> option Path;
  (** [Path.Iter], as the list of the nodes it walks through. *)
  Iter : Path -> Node -> list Node;
  (** [Node.String]. *)
  NodeString : Node -> string
}.

Record App {X : XMLPath} : Type := {
  (** [app.GetHTMLRoot url]: the root of the fetched page, or an error. *)
  GetHTMLRoot : string -> Node + error
}.

Section Scraper.

Context {X : XMLPath}.

Definition MustCompile (expression : string) : exec Path :=
  match Compile expression with
  | Some p => Done p
  | None => Panic (CompileFailed expression)
  end.

Definition Exists (p : Path) (context : Node) : bool :=
  match Iter p context with
  | [] => false
  | _ :: _ => true
  end.

Definition PathString (p : Path) (context : Node) : string * bool :=
  match Iter p context with
  | [] => ("", false)
  | n :: _ => (NodeString n, true)
  end.

(** *** Field extractors *)

Definition getUserName (root : Node) : exec (string * option error) :=
  path <- MustCompile userNameExpr ;;
  let '(result, ok) := PathString path root in
  if negb ok
  then Done (result, Some (New "user name xmlpath did not return a result"))
  else Done (Trim result (nl ++ " "), None).

Definition getJoinDate (root : Node) : exec (string * option error) :=
  path <- MustCompile joinDateExpr ;;
  let '(result, ok) := PathString path root in
  if negb ok
  then Done (result, Some (New "join date xmlpath did not return a result"))
  else Done (TrimPrefix result "Join Date: ", None).

Definition getTotalPosts (root : Node) : exec (Z * option error) :=
  path <- MustCompile totalPostsExpr ;;
  let '(posts, ok) := PathString path root in
  if negb ok
  then Done (0, Some (New "total posts xmlpath did not return a result"))
  else
    let posts := TrimPrefix posts "Total Posts: " in
    let posts := Replace posts "," "" in
    let '(result, err) := Atoi posts in
    match err with
    | Some _ => Done (0, Some (New "cannot convert posts to integer"))
    | None => Done (result, None)
    end.

Definition getReputation (app : App) (forumUserID : string) : exec (Z * option error) :=
  match GetHTMLRoot app (finduserURL forumUserID) with
  | inr err => Done (0, Some (Wrap err "cannot get user's posts"))
  | inl root =>
      path <- MustCompile listingHrefExpr ;;
      let '(href, ok) := PathString path root in
      if negb ok then Done (0, Some (New "cannot get user posts"))
      else
        match GetHTMLRoot app (forumURL href) with
        | inr err =>
            Done (0, Some (Wrap err "cannot get user's post in a topic"))
        | inl root =>
            table <- at_index (Split href "#") 1 ;;
            path <- MustCompile (reputationExpr table) ;;
            let '(reputation, ok) := PathString path root in
            if negb ok
            then Done (0, Some (New "cannot get reputation field from post"))
            else
              let reputation := TrimPrefix reputation "Reputation: " in
              let reputation := Replace reputation "," "" in
              let '(result, err) := Atoi reputation in
              match err with
              | Some err =>
                  Done (0, Some (Wrap err "cannot convert reputation to integer"))
              | None => Done (result, None)
              end
        end
  end.

Definition getUserBio (root : Node) : exec (string * option error) :=
  path <- MustCompile bioExpr ;;
  let '(result, ok) := PathString path root in
  if negb ok
  then Done (result, Some (New "user bio xmlpath did not return a result"))
  else Done (result, None).

(** The body of [for messageBlock.Next()], over the blocks that remain. *)
Fixpoint collectMessages (userPath textPath : Path) (blocks : list Node)
    (result : list VisitorMessage.t) : list VisitorMessage.t :=
  match blocks with
  | [] => result
  | block :: rest =>
      let '(user, ok) := PathString userPath block in
      if negb ok then collectMessages userPath textPath rest result
      else
        let '(text, ok) := PathString textPath block in
        if negb ok then collectMessages userPath textPath rest result
        else
          collectMessages userPath textPath rest
            (result ++ [VisitorMessage.Build user text])
  end.

Definition getFirstTenUserVisitorMessages (root : Node)
  : exec (list VisitorMessage.t * option error) :=
  let result := [] in
  mainPath <- MustCompile mainExpr ;;
  userPath <- MustCompile userExpr ;;
  textPath <- MustCompile textExpr ;;
  if negb (Exists mainPath root)
  then Done (result,
             Some (New "visitor messages xmlpath did not return a result"))
  else Done (collectMessages userPath textPath (Iter mainPath root) result,
             None).

(** *** Profile assembler *)

Definition GetUserProfilePage (app : App) (url : string)
  : exec (UserProfile * option error) :=
  let result := zero_UserProfile in
  match GetHTMLRoot app url with
  | inr err =>
      Done (result, Some (Wrap err "failed to get HTML root for user page"))
  | inl root =>
      '(v, err) <- getUserName root ;;
      let result := set_UserName v result in
      match err with
      | Some err =>
          Done (result, Some (Wrap err "url did not lead to a valid user page"))
      | None =>
          '(v, err) <- getJoinDate root ;;
          let result := note err (set_JoinDate v result) in
          '(v, err) <- getTotalPosts root ;;
          let result := note err (set_TotalPosts v result) in
          '(v, err) <- getReputation app (TrimPrefix url memberURL) ;;
          let result := note err (set_Reputation v result) in
          '(v, err) <- getUserBio root ;;
          let result := note err (set_BioText v result) in
          '(v, err) <- getFirstTenUserVisitorMessages root ;;
          let result := note err (set_VisitorMessages v result) in
          Done (result, None)
      end
  end.

(** *** Post locator *)

Definition getLatestPost (app : App) (id : string)
  : exec (string * string * option error) :=
  match GetHTMLRoot app (finduserURL id) with
  | inr err => Done ("", "", Some (Wrap err "cannot get user's posts"))
  | inl root =>
      path <- MustCompile titleExpr ;;
      let '(title, ok) := PathString path root in
      if negb ok
      then Done ("", "", Some (New "cannot get the title of the first post"))
      else
        path <- MustCompile hrefExpr ;;
        let '(href, ok) := PathString path root in
        if negb ok then Done ("", "", Some (New "cannot get user posts"))
        else
          match GetHTMLRoot app (forumURL href) with
          | inr err => Done ("", "", Some (Wrap err "cannot get user post url"))
          | inl root =>
              post <- slice_from href (Index href "#post" + 5) ;;
              path <- MustCompile (postExpr post) ;;
              let '(message, ok) := PathString path root in
              if negb ok then Done ("", "", Some (New "cannot get the post"))
              else
                let outputMessage := message in
                Done (title, outputMessage, None)
          end
  end.

End Scraper.

(** ** Change detector

    The state of the goroutine started by [newPostAlert]: the local
    [lastPostCount], and two counters for what the loop does to the outside,
    the calls of [fn] and the calls of [logger.Error]. *)

Record PollState : Type := {
  lastPostCount : Z;
  fnCalls : nat;
  logged : nat
}.

Definition sentinel : Z := -1.

(** [lastPostCount := -1], before the first tick. *)
Definition initial : PollState :=
  {| lastPostCount := sentinel; fnCalls := 0; logged := 0 |}.

(** One iteration of [for range ticker.C], after the call of
    [GetUserProfilePage] has returned [(profile, err)]. *)
Definition observe (poll : UserProfile * option error) (st : PollState)
  : PollState :=
  let '(profile, err) := poll in
  let logged' :=
    match err with
    | Some _ => S (logged st)
    | None => logged st
    end in
  if lastPostCount st =? -1
  then {| lastPostCount := TotalPosts profile; fnCalls := fnCalls st;
          logged := logged' |}
  else if lastPostCount st <? TotalPosts profile
  then {| lastPostCount := TotalPosts profile; fnCalls := S (fnCalls st);
          logged := logged' |}
  else {| lastPostCount := lastPostCount st; fnCalls := fnCalls st;
          logged := logged' |}.

Section Detector.

Context {X : XMLPath}.

(** One tick: [app] is the client as the forum answers it during that
    tick. *)
Definition tick (id : string) (app : App) (st : PollState) : exec PollState :=
  poll <- GetUserProfilePage app (memberURL ++ id) ;;
  Done (observe poll st).

(** The loop of [newPostAlert id fn], run for one tick per element of
    [forum]. *)
Fixpoint newPostAlert (id : string) (forum : list App) (st : PollState)
  : exec PollState :=
  match forum with
  | [] => Done st
  | app :: later =>
      st' <- tick id app st ;;
      newPostAlert id later st'
  end.

End Detector.

(** The detector over the outcomes of its polls. *)
Fixpoint observe_all (polls : list (UserProfile * option error))
    (st : PollState) : PollState :=
  match polls with
  | [] => st
  | poll :: later => observe_all later (observe poll st)
  end.

(** The values that [lastPostCount] takes, the starting one first. *)
Fixpoint counts (polls : list (UserProfile * option error)) (st : PollState)
  : list Z :=
  match polls with
  | [] => [lastPostCount st]
  | poll :: later => lastPostCount st :: counts later (observe poll st)
  end.

(** ** What the specification calls things *)

(** The two states of the detector: it is uninitialized while
    [lastPostCount] holds the sentinel. *)
Inductive DetectorState : Type := Uninitialized | Tracking.

Definition state_of (st : PollState) : DetectorState :=
  if lastPostCount st =? sentinel then Uninitialized else Tracking.

(** The entries that one extractor adds to the snapshot's error list. *)
Definition contribution (err : option error) : list error :=
  match err with
  | Some e => [e]
  | None => []
  end.

(** [sub] occurs in [s]. *)
Definition Contains (s sub : string) : Prop :=
  exists before after, s = before ++ sub ++ after.

Section Readings.

Context {X : XMLPath}.

(** A query finds nothing from a context node. *)
Definition absent (p : Path) (context : Node) : Prop := Iter p context = [].

(** A message block in which both the author and the body are found. *)
Definition complete (userPath textPath : Path) (block : Node) : bool :=
  snd (PathString userPath block) && snd (PathString textPath block).

Definition message_of (userPath textPath : Path) (block : Node)
  : VisitorMessage.t :=
  VisitorMessage.Build (fst (PathString userPath block))
                       (fst (PathString textPath block)).

(** The visitor messages as the specification describes them: the complete
    blocks, in the order of the page. *)
Definition messages_of_blocks (userPath textPath : Path) (blocks : list Node)
  : list VisitorMessage.t :=
  map (message_of userPath textPath) (filter (complete userPath textPath) blocks).

End Readings.

(** ** A forum made of tables, to run the scraper on

    A page node carries its text and, for each expression it answers, the
    nodes that the expression matches from it; every other expression
    matches nothing.  A forum is a table of pages by URL; a URL that is not
    in the table cannot be fetched. *)

Module Fake.

#[warnings="-register-all"] Inductive Doc : Type :=
| Elem (text : string) (answers : list (string * list Doc)).

Fixpoint lookup {A : Type} (key : string) (table : list (string * A))
  : option A :=
  match table with
  | [] => None
  | (k, v) :: rest => if String.eqb key k then Some v else lookup key rest
  end.

Definition matches (p : string) (context : Doc) : list Doc :=
  match context with
  | Elem _ answers =>
      match lookup p answers with
      | Some nodes => nodes
      | None => []
      end
  end.

Definition text_of (d : Doc) : string :=
  match d with
  | Elem text _ => text
  end.

(** The evaluator of these pages compiles every expression to itself. *)
#[global] Instance evaluator : XMLPath := {|
  Node := Doc;
  Path := string;
  Compile := fun expression => Some expression;
  Iter := matches;
  NodeString := text_of
|}.

Definition forum (pages : list (string * Doc)) : App :=
  {| GetHTMLRoot := fun url =>
       match lookup url pages with
       | Some page => inl page
       | None => inr (Failure "no such page")
       end |}.

Definition leaf (text : string) : Doc := Elem text [].

Definition block (user text : string) : Doc :=
  Elem "" [(userExpr, [leaf user]); (textExpr, [leaf text])].

(** A profile page with a name and a post count, nothing else. *)
Definition counted_profile (posts : string) : Doc :=
  Elem "" [(userNameExpr, [leaf "Kalcor"]);
           (totalPostsExpr, [leaf ("Total Posts: " ++ posts)])].

(** A profile page with a name only. *)
Definition bare_profile : Doc := Elem "" [(userNameExpr, [leaf "Kalcor"])].

(** A profile page whose message list has eleven complete blocks. *)
Definition crowded_profile : Doc :=
  Elem "" [(userNameExpr, [leaf "Kalcor"]);
           (mainExpr, map (fun u => block u "hello")
                          ["a"; "b"; "c"; "d"; "e"; "f"; "g"; "h"; "i"; "j"; "k"])].

(** A profile page with three blocks, the second without a body. *)
Definition chatty_profile : Doc :=
  Elem "" [(userNameExpr, [leaf "Kalcor"]);
           (mainExpr, [block "ann" "first";
                       Elem "" [(userExpr, [leaf "bob"])];
                       block "cid" "third"])].

Definition profileURL : string := memberURL ++ "3".

(** Every fetch fails. *)
Definition down : App := forum [].

(** The profile of user 3 shows [posts]; nothing else can be fetched. *)
Definition showing (posts : string) : App :=
  forum [(profileURL, counted_profile posts)].

(** The listing of user 3 refers to a post without a fragment, and that
    post can be fetched. *)
Definition plain_reference : App :=
  forum [(profileURL, bare_profile);
         (finduserURL "3", Elem "" [(listingHrefExpr, [leaf "showthread.php?p=77"])]);
         (forumURL "showthread.php?p=77", leaf "a thread")].

Definition crowded : App := forum [(profileURL, crowded_profile)].
Definition bare : App := forum [(profileURL, bare_profile)].

(** The listing of user 3 as the latest-post locator reads it: a title, a
    reference, and the page that the reference leads to. *)
Definition listing (title href : string) (target : Doc) : App :=
  forum [(finduserURL "3",
          Elem "" [(titleExpr, [leaf title]); (hrefExpr, [leaf href])]);
         (forumURL href, target)].

Definition thread_page : Doc :=
  Elem "" [(postExpr "123", [leaf "the newest post"]);
           (postExpr "ad.php?t=9", [leaf "some other element"])].

(** Outcomes of polls, for the detector alone. *)
Definition seen (posts : Z) : UserProfile * option error :=
  (set_TotalPosts posts (set_UserName "Kalcor" zero_UserProfile), None).
Definition failed : UserProfile * option error :=
  (zero_UserProfile,
   Some (Wrap (Failure "no such page") "failed to get HTML root for user page")).

(** The detector with a baseline, before any call of [fn]. *)
Definition tracking (baseline : Z) : PollState :=
  {| lastPostCount := baseline; fnCalls := 0; logged := 0 |}.

End Fake.

(** ** The announcement of a new post

    [Start] (bot_core.go) passes to [newPostAlert] a function literal that
    looks the latest post up and sends it to the primary channel.  The chat
    client is not part of the program: what it is asked to send is kept in
    a list, the latest message last. *)

Record Message : Type := { channel : string; content : string }.

(** [fmt.Sprint] on operands that are all strings: they are written one
    after the other (a space is added only between two operands of which
    neither is a string). *)
Definition Sprint (operands : list string) : string :=
  fold_right append "" operands.

(** The first operand of the [fmt.Sprint] of [Start]. *)
Definition announcement : string :=
  "**__NEW KALCOR POST__ IN TOPIC: %s**" ++ nl ++ "Post: %s".

Section Announcement.

Context {X : XMLPath}.

(** The function literal of [Start]: the value of [errors.Wrap] is dropped,
    so nothing is done with an error. *)
Definition announce (app : App) (PrimaryChannel : string)
    (sent : list Message) : exec (list Message) :=
  '(title, message, err) <- getLatestPost app "3" ;;
  match err with
  | Some _ => Done sent
  | None =>
      Done (sent ++ [{| channel := PrimaryChannel;
                        content := Sprint [announcement; title; message] |}])%list
  end.

(** One iteration of the loop of [newPostAlert] with what [fn] does: [fn]
    runs before [lastPostCount] is assigned, and a panic of [fn] is a panic
    of the loop. *)
Definition observeWith {S : Type} (fn : S -> exec S)
    (poll : UserProfile * option error) (st : PollState) (s : S)
  : exec (PollState * S) :=
  let '(profile, _) := poll in
  if lastPostCount st =? -1 then Done (observe poll st, s)
  else if lastPostCount st <? TotalPosts profile
  then s' <- fn s ;; Done (observe poll st, s')
  else Done (observe poll st, s).

(** [app.newPostAlert("3", func() { ... })] as [Start] calls it, run for one
    tick per element of [forum]. *)
Fixpoint alertLoop (PrimaryChannel : string) (forum : list App)
    (st : PollState) (sent : list Message)
  : exec (PollState * list Message) :=
  match forum with
  | [] => Done (st, sent)
  | app :: later =>
      poll <- GetUserProfilePage app (memberURL ++ "3") ;;
      '(st', sent') <- observeWith (announce app PrimaryChannel) poll st sent ;;
      alertLoop PrimaryChannel later st' sent'
  end.

End Announcement.

(** ** More of what the specification calls things *)

(** A string that consists of bytes of [cutset] only. *)
Fixpoint all_in (cutset s : string) : bool :=
  match s with
  | EmptyString => true
  | String c s' => mem c cutset && all_in cutset s'
  end.

(** The first and the last byte of a string. *)
Definition first_byte (s : string) : option ascii :=
  match s with
  | EmptyString => None
  | String c _ => Some c
  end.

Fixpoint last_byte (s : string) : option ascii :=
  match s with
  | EmptyString => None
  | String c EmptyString => Some c
  | String _ s' => last_byte s'
  end.

(** A count as the forum prints it, in decimal. *)
Definition decimal (n : nat) : string :=
  DecimalString.NilEmpty.string_of_uint (Nat.to_uint n).

(** The polls whose fetch failed. *)
Definition failed_poll (poll : UserProfile * option error) : bool :=
  match snd poll with
  | Some _ => true
  | None => false
  end.

(** More pages and forums to run the scraper on. *)

Module Sample.

(** A profile page whose name is surrounded by blanks, with a post count
    and two blocks of which none has a body. *)
Definition padded_profile (posts : string) : Fake.Doc :=
  Fake.Elem ""
    [(userNameExpr, [Fake.leaf (nl ++ "  Kalcor " ++ nl)]);
     (totalPostsExpr, [Fake.leaf ("Total Posts: " ++ posts)]);
     (mainExpr, [Fake.Elem "" [(userExpr, [Fake.leaf "ann"])];
                 Fake.Elem "" [(userExpr, [Fake.leaf "bob"])]])].

(** A profile page whose name anchor holds blanks only. *)
Definition blank_profile : Fake.Doc :=
  Fake.Elem "" [(userNameExpr, [Fake.leaf (" " ++ nl ++ " ")])].

(** A page without the name anchor. *)
Definition anonymous_profile : Fake.Doc :=
  Fake.Elem "" [(totalPostsExpr, [Fake.leaf "Total Posts: 7"])].

Definition anonymous : App :=
  Fake.forum [(Fake.profileURL, anonymous_profile)].



(** The profile of user 3 shows [posts] and the listing leads to a post. *)
Definition posting (posts title href : string) (target : Fake.Doc) : App :=
  Fake.forum [(Fake.profileURL, Fake.counted_profile posts);
              (finduserURL "3",
               Fake.Elem "" [(titleExpr, [Fake.leaf title]);
                             (hrefExpr, [Fake.leaf href])]);
              (forumURL href, target)].

End Sample.

(** * Properties *)

(** ** Strings *)

Lemma append_nil_r (s : string) : s ++ "" = s.
Proof. induction s as [|c s IH]; simpl; [reflexivity | now rewrite IH]. Qed.

Lemma append_assoc (a b c : string) : (a ++ b) ++ c = a ++ b ++ c.
Proof. induction a as [|x a IH]; simpl; [reflexivity | now rewrite IH]. Qed.

Lemma HasPrefix_iff (s prefix : string) :
  HasPrefix s prefix = true <-> exists rest, s = prefix ++ rest.
Proof.
  revert s; induction prefix as [|p prefix IH]; intros s; simpl.
  - split; [intros _; now exists s | reflexivity].
  - destruct s as [|c s].
    + split; [discriminate | intros [rest H]; discriminate].
    + rewrite andb_true_iff, Ascii.eqb_eq, IH. split.
      * intros [-> [rest ->]]. now exists rest.
      * intros [rest H]. injection H as -> ->. split; [reflexivity | now exists rest].
Qed.

Lemma Index_eq (s substr : string) :
  Index s substr =
  if HasPrefix s substr then 0
  else match s with
       | EmptyString => -1
       | String _ s' =>
           let i := Index s' substr in if i =? -1 then -1 else i + 1
       end.
Proof. destruct s; reflexivity. Qed.

Lemma Index_lower (s substr : string) : -1 <= Index s substr.
Proof.
  induction s as [|c s IH]; rewrite Index_eq.
  - destruct (HasPrefix "" substr); lia.
  - destruct (HasPrefix (String c s) substr); [lia|].
    cbv zeta. destruct (Z.eqb_spec (Index s substr) (-1)); lia.
Qed.

Lemma Contains_tail (c : ascii) (s sub : string) :
  Contains s sub -> Contains (String c s) sub.
Proof. intros [b [a ->]]. now exists (String c b), a. Qed.

Lemma Contains_cases (c : ascii) (s sub : string) :
  Contains (String c s) sub ->
  HasPrefix (String c s) sub = true \/ Contains s sub.
Proof.
  intros [b [a H]]. destruct b as [|x b].
  - left. apply HasPrefix_iff. now exists a.
  - right. simpl in H. injection H as _ ->. now exists b, a.
Qed.

(** [strings.Index] answers [-1] exactly on the strings in which the
    substring does not occur. *)
Lemma Index_absent (s substr : string) :
  Index s substr = -1 <-> ~ Contains s substr.
Proof.
  induction s as [|c s IH]; rewrite Index_eq.
  - destruct (HasPrefix "" substr) eqn:E.
    + split; [discriminate|]. intros H. exfalso. apply H.
      apply HasPrefix_iff in E as [rest E]. now exists "", rest.
    + split; [|reflexivity]. intros _ [b [a H]].
      destruct b; [|discriminate]. simpl in H.
      assert (HasPrefix "" substr = true) by (apply HasPrefix_iff; now exists a).
      congruence.
  - destruct (HasPrefix (String c s) substr) eqn:E.
    + split; [discriminate|]. intros H. exfalso. apply H.
      apply HasPrefix_iff in E as [rest E]. now exists "", rest.
    + cbv zeta. pose proof (Index_lower s substr) as L.
      destruct (Z.eqb_spec (Index s substr) (-1)) as [e|n].
      * split; [|reflexivity]. intros _ H.
        apply Contains_cases in H as [H|H]; [congruence|].
        now apply IH in H.
      * split; [lia|]. intros H. exfalso. apply n, IH.
        intros K. apply H. now apply Contains_tail.
Qed.

(** [strings.Split] on a string without the separator gives the string
    itself, alone. *)
Lemma Split_from_absent (sep s cur : string) :
  ~ Contains s sep -> Split_from 0 cur s sep = [cur ++ s].
Proof.
  revert cur; induction s as [|c s IH]; intros cur H; simpl.
  - now rewrite append_nil_r.
  - destruct (HasPrefix (String c s) sep) eqn:E.
    + exfalso. apply H. apply HasPrefix_iff in E as [rest E]. now exists "", rest.
    + rewrite IH.
      * now rewrite append_assoc.
      * intros K. apply H. now apply Contains_tail.
Qed.

Lemma Split_absent (s sep : string) : ~ Contains s sep -> Split s sep = [s].
Proof. intros H. unfold Split. now rewrite Split_from_absent. Qed.

Lemma at_index_single (s : string) :
  at_index [s] 1 = Panic (IndexOutOfRange 1 1).
Proof. reflexivity. Qed.

Lemma slice_from_4 (s : string) :
  slice_from s 4 =
  if (String.length s <? 4)%nat then Panic (SliceOutOfRange 4 (len s))
  else Done (skip 4 s).
Proof.
  unfold slice_from, len.
  destruct (Nat.ltb_spec (String.length s) 4) as [H|H];
    destruct (Z.ltb_spec (Z.of_nat (String.length s)) 4) as [K|K];
    try lia; reflexivity.
Qed.

(** ** The extractors, one by one *)

Section ScraperFacts.

Context {X : XMLPath}.

Lemma MustCompile_Some (e : string) (p : Path) :
  Compile e = Some p -> MustCompile e = Done p.
Proof. unfold MustCompile. now intros ->. Qed.

Lemma PathString_absent (p : Path) (context : Node) :
  absent p context -> PathString p context = ("", false).
Proof. unfold absent, PathString. now intros ->. Qed.

Lemma PathString_found (p : Path) (context n : Node) (rest : list Node) :
  Iter p context = n :: rest -> PathString p context = (NodeString n, true).
Proof. unfold PathString. now intros ->. Qed.

Lemma PathString_absent_iff (p : Path) (context : Node) :
  snd (PathString p context) = false <-> absent p context.
Proof.
  unfold absent, PathString.
  destruct (Iter p context); simpl; split; congruence.
Qed.

Lemma getUserName_found (p : Path) (root n : Node) (rest : list Node) :
  Compile userNameExpr = Some p -> Iter p root = n :: rest ->
  getUserName root = Done (Trim (NodeString n) (nl ++ " "), None).
Proof.
  intros C I. unfold getUserName.
  rewrite (MustCompile_Some _ _ C). simpl bind.
  now rewrite (PathString_found _ _ _ _ I).
Qed.

Lemma getJoinDate_eq (p : Path) (root : Node) :
  Compile joinDateExpr = Some p ->
  getJoinDate root =
  Done (match Iter p root with
        | [] => ("", Some (New "join date xmlpath did not return a result"))
        | n :: _ => (TrimPrefix (NodeString n) "Join Date: ", None)
        end).
Proof.
  intros C. unfold getJoinDate.
  rewrite (MustCompile_Some _ _ C). simpl bind.
  unfold PathString. now destruct (Iter p root).
Qed.

Lemma getTotalPosts_eq (p : Path) (root : Node) :
  Compile totalPostsExpr = Some p ->
  getTotalPosts root =
  Done (match Iter p root with
        | [] => (0, Some (New "total posts xmlpath did not return a result"))
        | n :: _ =>
            match Atoi (Replace (TrimPrefix (NodeString n) "Total Posts: ") "," "")
            with
            | (_, Some _) => (0, Some (New "cannot convert posts to integer"))
            | (result, None) => (result, None)
            end
        end).
Proof.
  intros C. unfold getTotalPosts.
  rewrite (MustCompile_Some _ _ C). simpl bind.
  unfold PathString. destruct (Iter p root); [reflexivity|].
  cbv beta iota zeta. simpl negb. cbv iota.
  destruct (Atoi _) as [v [e|]]; reflexivity.
Qed.

Lemma getUserBio_eq (p : Path) (root : Node) :
  Compile bioExpr = Some p ->
  getUserBio root =
  Done (match Iter p root with
        | [] => ("", Some (New "user bio xmlpath did not return a result"))
        | n :: _ => (NodeString n, None)
        end).
Proof.
  intros C. unfold getUserBio.
  rewrite (MustCompile_Some _ _ C). simpl bind.
  unfold PathString. now destruct (Iter p root).
Qed.

(** The loop over the message blocks appends, to what it has, the messages
    of the complete blocks in the order of the blocks. *)
Lemma collectMessages_eq (userPath textPath : Path) (blocks : list Node)
    (result : list VisitorMessage.t) :
  collectMessages userPath textPath blocks result =
  (result ++ messages_of_blocks userPath textPath blocks)%list.
Proof.
  revert result. unfold messages_of_blocks.
  induction blocks as [|b blocks IH]; intros result.
  - simpl. now rewrite app_nil_r.
  - cbn [collectMessages filter].
    assert (C : complete userPath textPath b =
                snd (PathString userPath b) && snd (PathString textPath b))
      by reflexivity.
    assert (M : message_of userPath textPath b =
                VisitorMessage.Build (fst (PathString userPath b))
                                     (fst (PathString textPath b)))
      by reflexivity.
    destruct (PathString userPath b) as [user [|]];
      destruct (PathString textPath b) as [text [|]];
      rewrite C; cbn [snd andb negb fst] in *; rewrite IH;
      [cbn [map]; rewrite M; now rewrite <- app_assoc | reflexivity ..].
Qed.

Lemma getFirstTenUserVisitorMessages_eq (mainPath userPath textPath : Path)
    (root : Node) :
  Compile mainExpr = Some mainPath ->
  Compile userExpr = Some userPath ->
  Compile textExpr = Some textPath ->
  getFirstTenUserVisitorMessages root =
  Done (match Iter mainPath root with
        | [] => ([], Some (New "visitor messages xmlpath did not return a result"))
        | _ :: _ => (messages_of_blocks userPath textPath (Iter mainPath root), None)
        end).
Proof.
  intros Cm Cu Ct. unfold getFirstTenUserVisitorMessages.
  rewrite (MustCompile_Some _ _ Cm), (MustCompile_Some _ _ Cu),
    (MustCompile_Some _ _ Ct). simpl bind.
  unfold Exists. rewrite collectMessages_eq.
  now destruct (Iter mainPath root).
Qed.

Lemma messages_of_blocks_length (userPath textPath : Path) (blocks : list Node) :
  (List.length (messages_of_blocks userPath textPath blocks)
   <= List.length blocks)%nat.
Proof.
  unfold messages_of_blocks. rewrite length_map.
  induction blocks as [|b blocks IH]; simpl; [lia|].
  destruct (complete userPath textPath b); simpl; lia.
Qed.

(** No block is dropped for being beyond the tenth: when every block is
    complete there are as many messages as blocks. *)
Lemma messages_of_complete_blocks (userPath textPath : Path)
    (blocks : list Node) :
  forallb (complete userPath textPath) blocks = true ->
  List.length (messages_of_blocks userPath textPath blocks)
  = List.length blocks.
Proof.
  unfold messages_of_blocks. rewrite length_map.
  induction blocks as [|b blocks IH]; simpl; [reflexivity|].
  rewrite andb_true_iff. intros [-> H]. simpl. now rewrite IH.
Qed.

(** A reputation that failed is the zero value. *)
Lemma getReputation_error_zero (app : App) (id : string) (v : Z) (e : error) :
  getReputation app id = Done (v, Some e) -> v = 0.
Proof.
  unfold getReputation.
  destruct (GetHTMLRoot app (finduserURL id)) as [root|err]; [|congruence].
  destruct (MustCompile listingHrefExpr) as [path|]; simpl bind; [|discriminate].
  destruct (PathString path root) as [href [|]]; simpl negb; cbv iota;
    [|congruence].
  destruct (GetHTMLRoot app (forumURL href)) as [root'|err]; [|congruence].
  destruct (at_index (Split href "#") 1) as [table|]; simpl bind; [|discriminate].
  destruct (MustCompile (reputationExpr table)) as [path'|]; simpl bind;
    [|discriminate].
  destruct (PathString path' root') as [rep [|]]; simpl negb; cbv iota;
    [|congruence].
  destruct (Atoi _) as [r [err|]]; congruence.
Qed.

(** A profile fetch that fails leaves the snapshot at its zero value. *)
Lemma GetUserProfilePage_error_zero (app : App) (url : string) (p : UserProfile)
    (e : error) :
  GetUserProfilePage app url = Done (p, Some e) -> p = zero_UserProfile.
Proof.
  unfold GetUserProfilePage.
  destruct (GetHTMLRoot app url) as [root|err]; [|congruence].
  unfold getUserName.
  destruct (MustCompile userNameExpr) as [path|]; simpl bind; [|discriminate].
  unfold PathString.
  destruct (Iter path root) as [|n rest]; simpl.
  - intros H. now injection H as <- _.
  - destruct (getJoinDate root) as [[v1 e1]|]; simpl bind; [|discriminate].
    destruct (getTotalPosts root) as [[v2 e2]|]; simpl bind; [|discriminate].
    destruct (getReputation _) as [[v3 e3]|]; simpl bind; [|discriminate].
    destruct (getUserBio root) as [[v4 e4]|]; simpl bind; [|discriminate].
    destruct (getFirstTenUserVisitorMessages root) as [[v5 e5]|]; simpl bind;
      discriminate.
Qed.

(** ** Visitor messages *)

(** C7.  The visitor messages are those of the blocks of the page in which
    both the author and the body are found, in the order of the page; there
    are at most as many as there are blocks; the blocks that are left out
    raise no error: the extraction returns an error exactly when the
    container query matches no node. *)
Theorem visitor_messages_in_source_order
    (root : Node) (mainPath userPath textPath : Path) :
  Compile mainExpr = Some mainPath ->
  Compile userExpr = Some userPath ->
  Compile textExpr = Some textPath ->
  exists messages err,
    getFirstTenUserVisitorMessages root = Done (messages, err)
    /\ (err <> None <-> absent mainPath root)
    /\ messages = messages_of_blocks userPath textPath (Iter mainPath root)
    /\ (List.length messages <= List.length (Iter mainPath root))%nat.
Proof.
  intros Cm Cu Ct.
  rewrite (getFirstTenUserVisitorMessages_eq _ _ _ root Cm Cu Ct).
  unfold absent.
  destruct (Iter mainPath root) as [|b blocks] eqn:E.
  - do 2 eexists. split; [reflexivity|]. repeat split; simpl; try lia.
    intros H; congruence.
  - do 2 eexists. split; [reflexivity|]. repeat split.
    + intros H; congruence.
    + discriminate.
    + apply messages_of_blocks_length.
Qed.

(** ** Profile assembler *)

(** What the assembler does when the reputation pipeline returns.  On a
    profile page that has the identity anchor, the top-level error is nil
    whatever else the page lacks.  Each optional field adds to the error
    list the error of its own extractor and nothing else, in the order join
    date, total posts, reputation, biography, visitor messages; a field that
    is absent adds exactly one entry and stays at its zero value.  The
    reputation does not come from the profile page: it is present or absent
    as its own pipeline returns a value or an error. *)
Lemma profile_with_identity_is_returned
    (app : App) (url : string) (root anchor : Node) (others : list Node)
    (namePath joinPath postsPath bioPath mainPath userPath textPath : Path) :
  GetHTMLRoot app url = inl root ->
  Compile userNameExpr = Some namePath ->
  Compile joinDateExpr = Some joinPath ->
  Compile totalPostsExpr = Some postsPath ->
  Compile bioExpr = Some bioPath ->
  Compile mainExpr = Some mainPath ->
  Compile userExpr = Some userPath ->
  Compile textExpr = Some textPath ->
  Iter namePath root = anchor :: others ->
  returns (getReputation app (TrimPrefix url memberURL)) ->
  exists jd tp rep bio vm profile,
    getJoinDate root = Done jd
    /\ getTotalPosts root = Done tp
    /\ getReputation app (TrimPrefix url memberURL) = Done rep
    /\ getUserBio root = Done bio
    /\ getFirstTenUserVisitorMessages root = Done vm
    /\ GetUserProfilePage app url = Done (profile, None)
    /\ UserName profile = Trim (NodeString anchor) (nl ++ " ")
    /\ JoinDate profile = fst jd
    /\ TotalPosts profile = fst tp
    /\ Reputation profile = fst rep
    /\ BioText profile = fst bio
    /\ VisitorMessages profile = fst vm
    /\ Errors profile =
       (contribution (snd jd) ++ contribution (snd tp) ++ contribution (snd rep)
        ++ contribution (snd bio) ++ contribution (snd vm))%list
    /\ (absent joinPath root -> fst jd = "" /\ exists e, snd jd = Some e)
    /\ (absent postsPath root -> fst tp = 0 /\ exists e, snd tp = Some e)
    /\ (snd rep <> None -> fst rep = 0)
    /\ (absent bioPath root -> fst bio = "" /\ exists e, snd bio = Some e)
    /\ (absent mainPath root -> fst vm = [] /\ exists e, snd vm = Some e).
Proof.
  intros Hroot Cn Cj Cp Cb Cm Cu Ct Hname [[vr er] Hrep].
  pose proof (getJoinDate_eq _ root Cj) as Ej.
  pose proof (getTotalPosts_eq _ root Cp) as Ep.
  pose proof (getUserBio_eq _ root Cb) as Eb.
  pose proof (getFirstTenUserVisitorMessages_eq _ _ _ root Cm Cu Ct) as Em.
  remember (match Iter joinPath root with [] => _ | _ :: _ => _ end)
    as jd eqn:Dj in Ej.
  remember (match Iter postsPath root with [] => _ | _ :: _ => _ end)
    as tp eqn:Dp in Ep.
  remember (match Iter bioPath root with [] => _ | _ :: _ => _ end)
    as bio eqn:Db in Eb.
  remember (match Iter mainPath root with [] => _ | _ :: _ => _ end)
    as vm eqn:Dm in Em.
  exists jd, tp, (vr, er), bio, vm.
  unfold GetUserProfilePage.
  rewrite Hroot, (getUserName_found _ _ _ _ Cn Hname), Ej, Ep, Hrep, Eb, Em.
  destruct jd as [vj ej], tp as [vp ep], bio as [vb eb], vm as [vv ev].
  simpl bind. eexists.
  do 6 (split; [reflexivity|]).
  split; [now destruct ej, ep, er, eb, ev|].
  split; [now destruct ej, ep, er, eb, ev|].
  split; [now destruct ej, ep, er, eb, ev|].
  split; [now destruct ej, ep, er, eb, ev|].
  split; [now destruct ej, ep, er, eb, ev|].
  split; [now destruct ej, ep, er, eb, ev|].
  split; [now destruct ej, ep, er, eb, ev|].
  unfold absent. cbn [fst snd].
  split; [intros H; rewrite H in Dj; injection Dj as -> ->; eauto|].
  split; [intros H; rewrite H in Dp; injection Dp as -> ->; eauto|].
  split.
  { destruct er as [e|]; [|congruence]. intros _.
    exact (getReputation_error_zero _ _ _ _ Hrep). }
  split; [intros H; rewrite H in Db; injection Db as -> ->; eauto|].
  intros H; rewrite H in Dm; injection Dm as -> ->; eauto.
Qed.

(** A panic of the reputation pipeline is a panic of the assembler: on a
    page with the identity anchor nothing is returned, not even a top-level
    error. *)
Lemma GetUserProfilePage_reputation_panic
    (app : App) (url : string) (root anchor : Node) (others : list Node)
    (namePath joinPath postsPath : Path) (p : panic) :
  GetHTMLRoot app url = inl root ->
  Compile userNameExpr = Some namePath ->
  Compile joinDateExpr = Some joinPath ->
  Compile totalPostsExpr = Some postsPath ->
  Iter namePath root = anchor :: others ->
  getReputation app (TrimPrefix url memberURL) = Panic p ->
  GetUserProfilePage app url = Panic p.
Proof.
  intros Hroot Cn Cj Cp Hname Hrep. unfold GetUserProfilePage.
  rewrite Hroot, (getUserName_found _ _ _ _ Cn Hname),
    (getJoinDate_eq _ root Cj), (getTotalPosts_eq _ root Cp), Hrep.
  cbn [bind].
  destruct (match Iter joinPath root with [] => _ | _ :: _ => _ end) as [vj ej].
  destruct (match Iter postsPath root with [] => _ | _ :: _ => _ end) as [vp ep].
  reflexivity.
Qed.

(** ** Reputation *)

(** When the first reference of the listing has no ["#"] and the page it
    leads to can be fetched, [strings.Split(href, "#")[1]] is out of range:
    [getReputation] panics. *)
Lemma getReputation_without_fragment
    (app : App) (id : string) (listing target h : Node) (hs : list Node)
    (hrefPath : Path) :
  GetHTMLRoot app (finduserURL id) = inl listing ->
  Compile listingHrefExpr = Some hrefPath ->
  Iter hrefPath listing = h :: hs ->
  GetHTMLRoot app (forumURL (NodeString h)) = inl target ->
  ~ Contains (NodeString h) "#" ->
  getReputation app id = Panic (IndexOutOfRange 1 1).
Proof.
  intros Hl C I Ht N. unfold getReputation.
  rewrite Hl, (MustCompile_Some _ _ C). simpl bind.
  rewrite (PathString_found _ _ _ _ I). simpl negb. cbv iota.
  rewrite Ht, (Split_absent _ _ N). reflexivity.
Qed.

(** ** Post locator *)

(** [getLatestPost] once the listing, its first title and reference, and
    the page of the reference have been obtained. *)
Lemma getLatestPost_on_target
    (app : App) (id : string) (listing target t h : Node) (ts hs : list Node)
    (titlePath hrefPath : Path) :
  GetHTMLRoot app (finduserURL id) = inl listing ->
  Compile titleExpr = Some titlePath ->
  Iter titlePath listing = t :: ts ->
  Compile hrefExpr = Some hrefPath ->
  Iter hrefPath listing = h :: hs ->
  GetHTMLRoot app (forumURL (NodeString h)) = inl target ->
  getLatestPost app id =
  (post <- slice_from (NodeString h) (Index (NodeString h) "#post" + 5) ;;
   path <- MustCompile (postExpr post) ;;
   match Iter path target with
   | [] => Done ("", "", Some (New "cannot get the post"))
   | m :: _ => Done (NodeString t, NodeString m, None)
   end).
Proof.
  intros Hl Ct It Ch Ih Ht. unfold getLatestPost.
  rewrite Hl, (MustCompile_Some _ _ Ct). simpl bind.
  rewrite (PathString_found _ _ _ _ It). simpl negb. cbv iota.
  rewrite (MustCompile_Some _ _ Ch). simpl bind.
  rewrite (PathString_found _ _ _ _ Ih). simpl negb. cbv iota.
  rewrite Ht.
  destruct (slice_from _ _) as [post|]; simpl bind; [|reflexivity].
  destruct (MustCompile (postExpr post)) as [path|]; simpl bind; [|reflexivity].
  unfold PathString. now destruct (Iter path target).
Qed.

(** C8.  For the reference ["thread.php?t=9#post123"] the identifier of the
    post is what follows ["#post"], that is ["123"], and the page of the
    reference is queried for the element whose id is ["post_message_123"]:
    its text is the message returned, and without it the locator returns an
    error. *)
Theorem latest_post_identifier
    (app : App) (id : string) (listing target t h : Node) (ts hs : list Node)
    (titlePath hrefPath postPath : Path) :
  GetHTMLRoot app (finduserURL id) = inl listing ->
  Compile titleExpr = Some titlePath ->
  Iter titlePath listing = t :: ts ->
  Compile hrefExpr = Some hrefPath ->
  Iter hrefPath listing = h :: hs ->
  NodeString h = "thread.php?t=9#post123" ->
  GetHTMLRoot app (forumURL "thread.php?t=9#post123") = inl target ->
  Compile ("//div[@id=" ++ dq ++ "post_message_123" ++ dq ++ "]")
  = Some postPath ->
  slice_from (NodeString h) (Index (NodeString h) "#post" + 5) = Done "123"
  /\ postExpr "123" = "//div[@id=" ++ dq ++ "post_message_" ++ "123" ++ dq ++ "]"
  /\ getLatestPost app id =
     match Iter postPath target with
     | [] => Done ("", "", Some (New "cannot get the post"))
     | m :: _ => Done (NodeString t, NodeString m, None)
     end.
Proof.
  intros Hl Ct It Ch Ih Hh Ht Cp.
  split; [now rewrite Hh|]. split; [reflexivity|].
  rewrite <- Hh in Ht.
  rewrite (getLatestPost_on_target _ _ _ _ _ _ _ _ _ _ Hl Ct It Ch Ih Ht).
  rewrite Hh. change (slice_from _ _) with (Done (A:=string) "123").
  cbn [bind]. unfold MustCompile.
  change (postExpr "123")
    with ("//div[@id=" ++ dq ++ "post_message_123" ++ dq ++ "]").
  now rewrite Cp.
Qed.

(** C10.  The position after ["#post"] is computed without a test: for a
    reference in which ["#post"] does not occur, [strings.Index] is [-1]
    and the slice starts at byte 4.  If the reference has fewer than 4
    bytes, [getLatestPost] panics; otherwise the identifier is the reference
    without its first 4 bytes, and the page is queried with it as if it were
    the identifier of a post: no error is returned for the reference. *)
Theorem latest_post_reference_without_marker
    (app : App) (id : string) (listing target t h : Node) (ts hs : list Node)
    (titlePath hrefPath : Path) :
  GetHTMLRoot app (finduserURL id) = inl listing ->
  Compile titleExpr = Some titlePath ->
  Iter titlePath listing = t :: ts ->
  Compile hrefExpr = Some hrefPath ->
  Iter hrefPath listing = h :: hs ->
  GetHTMLRoot app (forumURL (NodeString h)) = inl target ->
  ~ Contains (NodeString h) "#post" ->
  Index (NodeString h) "#post" = -1
  /\ ((String.length (NodeString h) < 4)%nat ->
      getLatestPost app id = Panic (SliceOutOfRange 4 (len (NodeString h))))
  /\ ((4 <= String.length (NodeString h))%nat ->
      slice_from (NodeString h) (Index (NodeString h) "#post" + 5)
      = Done (skip 4 (NodeString h))
      /\ getLatestPost app id =
         (path <- MustCompile (postExpr (skip 4 (NodeString h))) ;;
          match Iter path target with
          | [] => Done ("", "", Some (New "cannot get the post"))
          | m :: _ => Done (NodeString t, NodeString m, None)
          end)).
Proof.
  intros Hl Ct It Ch Ih Ht N.
  apply Index_absent in N.
  rewrite (getLatestPost_on_target _ _ _ _ _ _ _ _ _ _ Hl Ct It Ch Ih Ht).
  rewrite N. change (-1 + 5) with 4. rewrite slice_from_4.
  split; [reflexivity|]. split; intros L.
  - apply Nat.ltb_lt in L. now rewrite L.
  - apply Nat.ltb_ge in L. now rewrite L.
Qed.

End ScraperFacts.

(** ** Change detector *)

Lemma observe_uninitialized (profile : UserProfile) (err : option error)
    (st : PollState) :
  lastPostCount st = sentinel ->
  lastPostCount (observe (profile, err) st) = TotalPosts profile
  /\ fnCalls (observe (profile, err) st) = fnCalls st.
Proof. unfold observe, sentinel. intros ->. simpl. now split. Qed.

Lemma observe_tracking (profile : UserProfile) (err : option error)
    (st : PollState) :
  lastPostCount st <> sentinel ->
  (lastPostCount st < TotalPosts profile ->
   lastPostCount (observe (profile, err) st) = TotalPosts profile
   /\ fnCalls (observe (profile, err) st) = S (fnCalls st))
  /\ (TotalPosts profile <= lastPostCount st ->
      lastPostCount (observe (profile, err) st) = lastPostCount st
      /\ fnCalls (observe (profile, err) st) = fnCalls st).
Proof.
  unfold observe, sentinel. intros N.
  destruct (Z.eqb_spec (lastPostCount st) (-1)) as [E|_]; [contradiction|].
  destruct (Z.ltb_spec (lastPostCount st) (TotalPosts profile)) as [L|L];
    simpl; split; intros H; try lia; now split.
Qed.

(** Outside the uninitialized state a tick does not lower [lastPostCount],
    and it changes it only to an observed count that is strictly greater. *)
Lemma observe_step (poll : UserProfile * option error) (st : PollState) :
  lastPostCount st <> sentinel ->
  lastPostCount st <= lastPostCount (observe poll st)
  /\ (lastPostCount (observe poll st) <> lastPostCount st ->
      lastPostCount st < TotalPosts (fst poll)
      /\ lastPostCount (observe poll st) = TotalPosts (fst poll)).
Proof.
  intros N. destruct poll as [profile err].
  destruct (observe_tracking profile err st N) as [Up Keep]. cbn [fst].
  destruct (Z.lt_ge_cases (lastPostCount st) (TotalPosts profile)) as [L|L].
  - destruct (Up L) as [-> _]. split; [lia|]. intros _. now split.
  - destruct (Keep L) as [-> _]. split; [lia|]. intros H. now contradiction H.
Qed.

Lemma counts_head (polls : list (UserProfile * option error)) (st : PollState) :
  exists rest, counts polls st = lastPostCount st :: rest.
Proof. destruct polls; simpl; eauto. Qed.

Lemma counts_sorted (polls : list (UserProfile * option error)) (st : PollState) :
  Forall (fun c => c <> sentinel) (counts polls st) ->
  Sorted Z.le (counts polls st).
Proof.
  revert st. induction polls as [|poll polls IH]; intros st H; simpl in *.
  - repeat constructor.
  - inversion H as [|c l N T]; subst. constructor; [now apply IH|].
    destruct (counts_head polls (observe poll st)) as [rest ->].
    constructor. now apply observe_step.
Qed.

(** A count that is not negative stays so: the detector does not come back
    to the uninitialized state. *)
Lemma counts_nonnegative (polls : list (UserProfile * option error))
    (st : PollState) :
  0 <= lastPostCount st -> Forall (fun c => 0 <= c) (counts polls st).
Proof.
  revert st. induction polls as [|poll polls IH]; intros st H; simpl.
  - now repeat constructor.
  - constructor; [assumption|]. apply IH.
    assert (N : lastPostCount st <> sentinel) by (unfold sentinel; lia).
    pose proof (observe_step poll st N) as [L _]. lia.
Qed.

Lemma counts_sorted_nonnegative (polls : list (UserProfile * option error))
    (st : PollState) :
  0 <= lastPostCount st -> Sorted Z.le (counts polls st).
Proof.
  intros H. apply counts_sorted.
  eapply Forall_impl; [|exact (counts_nonnegative polls st H)].
  unfold sentinel. simpl. intros c L. lia.
Qed.

(** C9, amended.  Over any run of ticks in which [lastPostCount] is never
    the sentinel, its successive values do not decrease; and a tick taken
    outside the uninitialized state changes it only to a freshly observed
    count that strictly exceeds it, whether the fetch failed or not. *)
Theorem lastPostCount_does_not_decrease
    (polls : list (UserProfile * option error)) (st : PollState) :
  Forall (fun c => c <> sentinel) (counts polls st) ->
  StronglySorted Z.le (counts polls st)
  /\ forall poll,
       lastPostCount (observe poll st) <> lastPostCount st ->
       lastPostCount st < TotalPosts (fst poll)
       /\ lastPostCount (observe poll st) = TotalPosts (fst poll).
Proof.
  intros H. split.
  - apply Sorted_StronglySorted; [exact Z.le_trans | now apply counts_sorted].
  - intros poll. apply observe_step.
    destruct (counts_head polls st) as [rest E]. rewrite E in H.
    now inversion H.
Qed.

Section DetectorFacts.

Context {X : XMLPath}.

Lemma tick_eq (id : string) (app : App) (st : PollState)
    (poll : UserProfile * option error) :
  GetUserProfilePage app (memberURL ++ id) = Done poll ->
  tick id app st = Done (observe poll st).
Proof. unfold tick. now intros ->. Qed.

(** A fetch that fails is observed as a count of zero. *)
Lemma failed_poll_is_zero (app : App) (url : string) (profile : UserProfile)
    (e : error) :
  GetUserProfilePage app url = Done (profile, Some e) -> TotalPosts profile = 0.
Proof. intros H. now rewrite (GetUserProfilePage_error_zero _ _ _ _ H). Qed.

(** The loop is the fold of [observe] over the outcomes of the fetches. *)
Lemma newPostAlert_observe_all (id : string) (forum : list App)
    (polls : list (UserProfile * option error)) (st : PollState) :
  Forall2 (fun app poll => GetUserProfilePage app (memberURL ++ id) = Done poll)
          forum polls ->
  newPostAlert id forum st = Done (observe_all polls st).
Proof.
  intros H. revert st. induction H as [|app poll forum polls E _ IH]; intros st.
  - reflexivity.
  - simpl. rewrite (tick_eq _ _ _ _ E). simpl bind. apply IH.
Qed.

(** A tick in the uninitialized state whose fetch succeeds records the
    observed count and does not call [fn]; the detector is tracking after it
    unless the count is the sentinel itself. *)
Lemma uninitialized_tick_success (id : string) (app : App) (st : PollState)
    (profile : UserProfile) :
  lastPostCount st = sentinel ->
  GetUserProfilePage app (memberURL ++ id) = Done (profile, None) ->
  exists st',
    tick id app st = Done st'
    /\ lastPostCount st' = TotalPosts profile
    /\ fnCalls st' = fnCalls st
    /\ (TotalPosts profile <> sentinel -> state_of st' = Tracking).
Proof.
  intros U E. exists (observe (profile, None) st).
  split; [now apply tick_eq|].
  destruct (observe_uninitialized profile None st U) as [L F].
  repeat split; try assumption.
  intros N. unfold state_of. rewrite L.
  now destruct (Z.eqb_spec (TotalPosts profile) sentinel).
Qed.

(** A tick in the uninitialized state whose fetch fails records zero as the
    count. *)
Lemma uninitialized_tick_failure (id : string) (app : App) (st : PollState)
    (profile : UserProfile) (e : error) :
  lastPostCount st = sentinel ->
  GetUserProfilePage app (memberURL ++ id) = Done (profile, Some e) ->
  exists st',
    tick id app st = Done st'
    /\ lastPostCount st' = 0
    /\ state_of st' = Tracking.
Proof.
  intros U E. exists (observe (profile, Some e) st).
  split; [now apply tick_eq|].
  destruct (observe_uninitialized profile (Some e) st U) as [L _].
  rewrite (failed_poll_is_zero _ _ _ _ E) in L.
  split; [assumption|]. unfold state_of. now rewrite L.
Qed.

(** A fetch that fails in the uninitialized state, then one that succeeds
    with a positive count: the second tick calls [fn]. *)
Lemma alarm_after_failed_first_poll (id : string) (app1 app2 : App)
    (st : PollState) (failed_profile profile : UserProfile) (e : error) :
  lastPostCount st = sentinel ->
  GetUserProfilePage app1 (memberURL ++ id) = Done (failed_profile, Some e) ->
  GetUserProfilePage app2 (memberURL ++ id) = Done (profile, None) ->
  0 < TotalPosts profile ->
  exists st',
    newPostAlert id [app1; app2] st = Done st'
    /\ fnCalls st' = S (fnCalls st)
    /\ lastPostCount st' = TotalPosts profile.
Proof.
  intros U E1 E2 P.
  rewrite (newPostAlert_observe_all id [app1; app2]
             [(failed_profile, Some e); (profile, None)] st)
    by (repeat constructor; assumption).
  eexists. split; [reflexivity|]. cbn [observe_all].
  destruct (observe_uninitialized failed_profile (Some e) st U) as [L F].
  rewrite (failed_poll_is_zero _ _ _ _ E1) in L.
  assert (N : lastPostCount (observe (failed_profile, Some e) st) <> sentinel)
    by (rewrite L; discriminate).
  destruct (observe_tracking profile None _ N) as [Up _].
  destruct Up as [Count Calls]; [lia|].
  rewrite Count, Calls, F. now split.
Qed.

(** What holds of a tick in the tracking state with baseline [b]: an
    observed count equal to [b] calls [fn] no time and leaves the baseline;
    an observed count above [b] calls [fn] once and becomes the baseline; a
    fetch that fails, with [b] not negative, calls [fn] no time and leaves
    the baseline, because the zero count it is observed as does not exceed
    [b]. *)
Lemma tracking_tick
    (id : string) (app : App) (st : PollState)
    (poll : UserProfile * option error) :
  lastPostCount st <> sentinel ->
  GetUserProfilePage app (memberURL ++ id) = Done poll ->
  exists st',
    tick id app st = Done st'
    /\ (snd poll = None -> TotalPosts (fst poll) = lastPostCount st ->
        fnCalls st' = fnCalls st /\ lastPostCount st' = lastPostCount st)
    /\ (snd poll = None -> lastPostCount st < TotalPosts (fst poll) ->
        fnCalls st' = S (fnCalls st)
        /\ lastPostCount st' = TotalPosts (fst poll))
    /\ (snd poll <> None -> 0 <= lastPostCount st ->
        fnCalls st' = fnCalls st /\ lastPostCount st' = lastPostCount st).
Proof.
  intros N E. exists (observe poll st). split; [now apply tick_eq|].
  destruct poll as [profile err]. cbn [fst snd].
  destruct (observe_tracking profile err st N) as [Up Keep].
  split; [|split].
  - intros _ Q. destruct Keep as [-> ->]; [lia | now split].
  - intros _ L. destruct (Up L) as [-> ->]. now split.
  - intros F B. destruct err as [e|]; [|congruence].
    rewrite (failed_poll_is_zero _ _ _ _ E) in Keep.
    destruct (Keep B) as [-> ->]. now split.
Qed.

End DetectorFacts.

(** ** The scraper on concrete forums *)

(** C1.  The first tick finds the forum down: the fetch returns an error,
    and the tick nevertheless stores the zero count of the empty snapshot in
    [lastPostCount].  The detector has left the uninitialized state with a
    baseline of 0 that was never observed. *)
Theorem failed_first_poll_becomes_baseline :
  GetUserProfilePage Fake.down Fake.profileURL = Done Fake.failed
  /\ lastPostCount initial = sentinel
  /\ tick "3" Fake.down initial
     = Done {| lastPostCount := 0; fnCalls := 0; logged := 1 |}
  /\ state_of {| lastPostCount := 0; fnCalls := 0; logged := 1 |} = Tracking.
Proof. repeat split. Qed.

(** C4.  The forum is down at the first tick and shows 500 posts at the
    second.  The second tick is the first whose fetch succeeds, and it calls
    [fn]: the posts that were there before the detector started are
    announced as new. *)
Theorem first_successful_poll_after_failure_calls_fn :
  GetUserProfilePage Fake.down Fake.profileURL = Done Fake.failed
  /\ (exists profile,
        GetUserProfilePage (Fake.showing "500") Fake.profileURL
        = Done (profile, None)
        /\ TotalPosts profile = 500)
  /\ newPostAlert "3" [Fake.down; Fake.showing "500"] initial
     = Done {| lastPostCount := 500; fnCalls := 1; logged := 1 |}.
Proof.
  split; [reflexivity|]. split; [|reflexivity].
  eexists. split; reflexivity.
Qed.

(** C2.  The first reference of the listing is ["showthread.php?p=77"], and
    that page can be fetched: [getReputation] does not return an error, it
    panics on the index [1] of a slice of length 1. *)
Theorem reputation_panics_on_plain_reference :
  ~ Contains "showthread.php?p=77" "#"
  /\ Split "showthread.php?p=77" "#" = ["showthread.php?p=77"]
  /\ getReputation Fake.plain_reference "3" = Panic (IndexOutOfRange 1 1).
Proof.
  split; [now apply Index_absent|]. split; reflexivity.
Qed.

(** C6.  The profile page has the identity anchor and nothing else, and the
    first reference of the user's listing has no fragment:
    [GetUserProfilePage] returns no snapshot and no error, it panics in the
    reputation pipeline. *)
Theorem profile_with_identity_panics :
  GetHTMLRoot Fake.plain_reference Fake.profileURL = inl Fake.bare_profile
  /\ Iter (XMLPath:=Fake.evaluator) userNameExpr Fake.bare_profile
     = [Fake.leaf "Kalcor"]
  /\ GetUserProfilePage Fake.plain_reference Fake.profileURL
     = Panic (IndexOutOfRange 1 1)
  /\ ~ returns (GetUserProfilePage Fake.plain_reference Fake.profileURL).
Proof.
  do 3 (split; [reflexivity|]). intros [r H]. discriminate H.
Qed.

(** C3.  The message list of the page has eleven complete blocks: the
    snapshot returned has eleven visitor messages. *)
Theorem eleven_visitor_messages :
  List.length (Iter (XMLPath:=Fake.evaluator) mainExpr Fake.crowded_profile) = 11%nat
  /\ exists profile,
       GetUserProfilePage Fake.crowded Fake.profileURL = Done (profile, None)
       /\ List.length (VisitorMessages profile) = 11%nat
       /\ ~ (List.length (VisitorMessages profile) <= 10)%nat.
Proof.
  split; [reflexivity|]. eexists. split; [reflexivity|].
  split; [reflexivity|]. simpl. lia.
Qed.

(** C5.  The profile shows -5 posts at the first tick, which becomes the
    baseline of the tracking state; the fetch of the second tick fails, is
    observed as 0 posts, and [fn] is called and the baseline replaced. *)
Theorem failed_poll_over_negative_baseline :
  newPostAlert "3" [Fake.showing "-5"] initial = Done (Fake.tracking (-5))
  /\ state_of (Fake.tracking (-5)) = Tracking
  /\ GetUserProfilePage Fake.down Fake.profileURL = Done Fake.failed
  /\ tick "3" Fake.down (Fake.tracking (-5))
     = Done {| lastPostCount := 0; fnCalls := 1; logged := 1 |}.
Proof. repeat split. Qed.

(** C9 as stated fails: the profile shows -5, then -1, then -3 posts.  After
    the first tick the detector tracks with -5; the second tick raises the
    count to -1, which is the sentinel; the third tick lowers it to -3. *)
Lemma count_lowered_after_sentinel :
  newPostAlert "3" [Fake.showing "-5"] initial = Done (Fake.tracking (-5))
  /\ state_of (Fake.tracking (-5)) = Tracking
  /\ tick "3" (Fake.showing "-1") (Fake.tracking (-5))
     = Done {| lastPostCount := -1; fnCalls := 1; logged := 0 |}
  /\ tick "3" (Fake.showing "-3")
          {| lastPostCount := -1; fnCalls := 1; logged := 0 |}
     = Done {| lastPostCount := -3; fnCalls := 1; logged := 0 |}
  /\ counts [Fake.seen (-5); Fake.seen (-1); Fake.seen (-3)] initial
     = [-1; -5; -1; -3]
  /\ ~ Sorted Z.le [-5; -1; -3].
Proof.
  do 5 (split; [reflexivity|]).
  intros H. inversion H as [|a l S1 R1]; subst.
  inversion S1 as [|a l S2 R2]; subst. inversion R2; subst. lia.
Qed.

(** ** The theorems at work *)

(** C7 on a page with three blocks, the second without a body. *)
Lemma visitor_messages_in_source_order_witness :
  Compile (XMLPath:=Fake.evaluator) mainExpr = Some mainExpr
  /\ exists messages,
       getFirstTenUserVisitorMessages Fake.chatty_profile
       = Done (messages, None)
       /\ messages = [VisitorMessage.Build "ann" "first";
                      VisitorMessage.Build "cid" "third"].
Proof.
  split; [reflexivity|].
  destruct (visitor_messages_in_source_order (X:=Fake.evaluator)
              Fake.chatty_profile mainExpr userExpr textExpr
              eq_refl eq_refl eq_refl)
    as (messages & err & E & _ & M & _).
  exists messages. vm_compute in E. injection E as Hm He. subst messages err.
  split; reflexivity.
Defined.

(** The assembler on a profile page that has the identity anchor and
    nothing else, while the listing of the user's posts cannot be fetched:
    five errors, every optional field at its zero value. *)
Lemma profile_with_identity_on_bare_page :
  GetHTMLRoot Fake.bare Fake.profileURL = inl Fake.bare_profile
  /\ returns (getReputation Fake.bare (TrimPrefix Fake.profileURL memberURL))
  /\ exists profile,
       GetUserProfilePage Fake.bare Fake.profileURL = Done (profile, None)
       /\ List.length (Errors profile) = 5%nat
       /\ JoinDate profile = "" /\ TotalPosts profile = 0
       /\ Reputation profile = 0 /\ BioText profile = ""
       /\ VisitorMessages profile = [].
Proof.
  split; [reflexivity|].
  assert (R : returns (getReputation Fake.bare
                         (TrimPrefix Fake.profileURL memberURL)))
    by (eexists; reflexivity).
  split; [exact R|].
  destruct (profile_with_identity_is_returned (X:=Fake.evaluator)
              Fake.bare Fake.profileURL Fake.bare_profile
              (Fake.leaf "Kalcor") []
              userNameExpr joinDateExpr totalPostsExpr bioExpr mainExpr
              userExpr textExpr
              eq_refl eq_refl eq_refl eq_refl eq_refl eq_refl eq_refl eq_refl
              eq_refl R)
    as (jd & tp & rep & bio & vm & profile & Ej & Ep & Er & Eb & Em & E & _).
  exists profile. split; [exact E|].
  vm_compute in E. injection E as <-. repeat split.
Defined.

(** C8 on a listing whose first reference is ["thread.php?t=9#post123"]. *)
Lemma latest_post_identifier_witness :
  NodeString (XMLPath:=Fake.evaluator) (Fake.leaf "thread.php?t=9#post123")
  = "thread.php?t=9#post123"
  /\ getLatestPost
       (Fake.listing "Re: news" "thread.php?t=9#post123" Fake.thread_page) "3"
     = Done ("Re: news", "the newest post", None).
Proof.
  split; [reflexivity|].
  destruct (latest_post_identifier (X:=Fake.evaluator)
              (Fake.listing "Re: news" "thread.php?t=9#post123" Fake.thread_page)
              "3"
              (Fake.Elem "" [(titleExpr, [Fake.leaf "Re: news"]);
                             (hrefExpr, [Fake.leaf "thread.php?t=9#post123"])])
              Fake.thread_page (Fake.leaf "Re: news")
              (Fake.leaf "thread.php?t=9#post123") [] []
              titleExpr hrefExpr (postExpr "123")
              eq_refl eq_refl eq_refl eq_refl eq_refl eq_refl eq_refl eq_refl)
    as (_ & _ & E).
  rewrite E. reflexivity.
Defined.

(** C10 on a listing whose first reference is ["abc"], and on one whose
    first reference is ["thread.php?t=9"]: a panic, then the element
    ["post_message_ad.php?t=9"] taken for the post. *)
Lemma latest_post_reference_without_marker_witness :
  ~ Contains "abc" "#post"
  /\ ~ Contains "thread.php?t=9" "#post"
  /\ getLatestPost (Fake.listing "Re: news" "abc" Fake.thread_page) "3"
     = Panic (SliceOutOfRange 4 3)
  /\ getLatestPost (Fake.listing "Re: news" "thread.php?t=9" Fake.thread_page) "3"
     = Done ("Re: news", "some other element", None).
Proof.
  assert (N1 : ~ Contains "abc" "#post") by now apply Index_absent.
  assert (N2 : ~ Contains "thread.php?t=9" "#post") by now apply Index_absent.
  split; [exact N1|]. split; [exact N2|]. split.
  - destruct (latest_post_reference_without_marker (X:=Fake.evaluator)
                (Fake.listing "Re: news" "abc" Fake.thread_page) "3"
                (Fake.Elem "" [(titleExpr, [Fake.leaf "Re: news"]);
                               (hrefExpr, [Fake.leaf "abc"])])
                Fake.thread_page (Fake.leaf "Re: news") (Fake.leaf "abc") [] []
                titleExpr hrefExpr
                eq_refl eq_refl eq_refl eq_refl eq_refl eq_refl N1)
      as (_ & P & _).
    apply P. simpl. lia.
  - destruct (latest_post_reference_without_marker (X:=Fake.evaluator)
                (Fake.listing "Re: news" "thread.php?t=9" Fake.thread_page) "3"
                (Fake.Elem "" [(titleExpr, [Fake.leaf "Re: news"]);
                               (hrefExpr, [Fake.leaf "thread.php?t=9"])])
                Fake.thread_page (Fake.leaf "Re: news")
                (Fake.leaf "thread.php?t=9") [] []
                titleExpr hrefExpr
                eq_refl eq_refl eq_refl eq_refl eq_refl eq_refl N2)
      as (_ & _ & Q).
    destruct Q as [_ E]; [simpl; lia|]. rewrite E. reflexivity.
Defined.

(** The tracking state on the baseline 500: the profile shows 500, then
    501, then the forum is down. *)
Lemma tracking_tick_at_500 :
  lastPostCount (Fake.tracking 500) <> sentinel
  /\ tick "3" (Fake.showing "500") (Fake.tracking 500)
     = Done (Fake.tracking 500)
  /\ tick "3" (Fake.showing "501") (Fake.tracking 500)
     = Done {| lastPostCount := 501; fnCalls := 1; logged := 0 |}
  /\ exists st',
       tick "3" Fake.down {| lastPostCount := 501; fnCalls := 1; logged := 0 |}
       = Done st'
       /\ fnCalls st' = 1%nat /\ lastPostCount st' = 501.
Proof.
  assert (N : forall b calls log, 0 <= b ->
            lastPostCount {| lastPostCount := b; fnCalls := calls; logged := log |}
            <> sentinel)
    by (unfold sentinel; simpl; intros; lia).
  split; [apply N; lia|]. split; [reflexivity|]. split; [reflexivity|].
  destruct (tracking_tick (X:=Fake.evaluator) "3" Fake.down
              {| lastPostCount := 501; fnCalls := 1; logged := 0 |}
              Fake.failed (N 501 1%nat 0%nat ltac:(lia)) eq_refl)
    as (st' & T & _ & _ & F).
  exists st'. split; [exact T|].
  apply F; [discriminate | simpl; lia].
Defined.

(** C9 on the run 500, a failed fetch, 501, 501 from the baseline 500. *)
Lemma lastPostCount_does_not_decrease_witness :
  counts [Fake.seen 500; Fake.failed; Fake.seen 501; Fake.seen 501]
         (Fake.tracking 500)
  = [500; 500; 500; 501; 501]
  /\ StronglySorted Z.le [500; 500; 500; 501; 501].
Proof.
  split; [reflexivity|].
  refine (proj1 (lastPostCount_does_not_decrease
                   [Fake.seen 500; Fake.failed; Fake.seen 501; Fake.seen 501]
                   (Fake.tracking 500) _)).
  repeat constructor; vm_compute; discriminate.
Defined.

(** * More properties of the scraper *)

(** ** Strings and numbers *)

Lemma HasPrefix_app (prefix s : string) : HasPrefix (prefix ++ s) prefix = true.
Proof. apply HasPrefix_iff. now exists s. Qed.

Lemma skip_app (prefix s : string) :
  skip (String.length prefix) (prefix ++ s) = s.
Proof. induction prefix as [|c prefix IH]; simpl; [now destruct s | exact IH]. Qed.

Lemma TrimPrefix_app (prefix s : string) : TrimPrefix (prefix ++ s) prefix = s.
Proof. unfold TrimPrefix. now rewrite HasPrefix_app, skip_app. Qed.

(** Replacing a single byte works piece by piece. *)
Lemma Replace_app (c : ascii) (new a b : string) :
  Replace (a ++ b) (String c "") new
  = Replace a (String c "") new ++ Replace b (String c "") new.
Proof.
  unfold Replace. induction a as [|x a IH]; [reflexivity|].
  cbn [append Replace_from HasPrefix String.length Nat.sub].
  destruct (Ascii.eqb c x); cbn [andb]; rewrite IH.
  - now rewrite append_assoc.
  - reflexivity.
Qed.

Lemma Replace_without (c : ascii) (new s : string) :
  mem c s = false -> Replace s (String c "") new = s.
Proof.
  unfold Replace. induction s as [|x s IH]; [reflexivity|].
  cbn [mem Replace_from HasPrefix]. rewrite orb_false_iff.
  intros [E M]. rewrite E. cbn [andb]. now rewrite IH.
Qed.

Lemma TrimLeft_first (cutset s : string) (c : ascii) :
  first_byte (TrimLeft s cutset) = Some c -> mem c cutset = false.
Proof.
  induction s as [|x s IH]; simpl; [discriminate|].
  destruct (mem x cutset) eqn:M; [exact IH|].
  simpl. intros H. now injection H as <-.
Qed.

Lemma TrimRight_first (cutset s : string) (c : ascii) :
  first_byte (TrimRight s cutset) = Some c -> first_byte s = Some c.
Proof.
  destruct s as [|x s]; simpl; [discriminate|].
  destruct (TrimRight s cutset); [destruct (mem x cutset)|]; simpl;
    congruence.
Qed.

Lemma TrimRight_last (cutset s : string) (c : ascii) :
  last_byte (TrimRight s cutset) = Some c -> mem c cutset = false.
Proof.
  induction s as [|x s IH]; simpl; [discriminate|].
  destruct (TrimRight s cutset) as [|y t] eqn:E.
  - destruct (mem x cutset) eqn:M; simpl; [discriminate|].
    intros H. now injection H as <-.
  - intros H. apply IH. exact H.
Qed.

Lemma TrimLeft_all_in (cutset s : string) :
  all_in cutset s = true -> TrimLeft s cutset = "".
Proof.
  induction s as [|x s IH]; simpl; [reflexivity|].
  rewrite andb_true_iff. intros [-> H]. now apply IH.
Qed.

(** The digits of a decimal numeral, read by [Atoi]'s loop. *)
Lemma digits_value_decimal (d : Decimal.uint) (acc : Z) :
  0 <= acc ->
  digits_value acc (DecimalString.NilEmpty.string_of_uint d)
  = Some (Z.of_nat (Nat.of_uint_acc d (Z.to_nat acc))).
Proof.
  assert (T : forall a, Nat.tail_mul 10 a = (10 * a)%nat)
    by (intros a; apply Nat.tail_mul_spec).
  revert acc. induction d as [|d IH|d IH|d IH|d IH|d IH|d IH|d IH|d IH|d IH|d IH];
    intros acc A;
    [simpl; now rewrite Z2Nat.id | ..];
    cbn [DecimalString.NilEmpty.string_of_uint digits_value Nat.of_uint_acc];
    rewrite T;
    match goal with
    | |- (if is_digit ?c then _ else _) = _ =>
        change (is_digit c) with true; cbv iota;
        let v := eval vm_compute in (digit_value c) in
        change (digit_value c) with v
    end;
    rewrite IH by lia; do 3 f_equal; lia.
Qed.

Lemma decimal_not_empty (n : nat) : Nat.to_uint n <> Decimal.Nil.
Proof.
  intros E. pose proof (DecimalNat.Unsigned.of_to n) as H.
  rewrite E in H. simpl in H. subst n. discriminate E.
Qed.

Lemma decimal_no_comma (d : Decimal.uint) :
  mem "," (DecimalString.NilEmpty.string_of_uint d) = false.
Proof. induction d; simpl; [reflexivity | assumption ..]. Qed.

(** [Atoi] reads back a count printed in decimal, as long as it fits the
    type [int]. *)
Lemma Atoi_decimal (n : nat) :
  Z.of_nat n <= max_int -> Atoi (decimal n) = (Z.of_nat n, None).
Proof.
  intros B. unfold decimal.
  pose proof (decimal_not_empty n) as N.
  pose proof (DecimalNat.Unsigned.of_to n) as R. unfold Nat.of_uint in R.
  pose proof (digits_value_decimal (Nat.to_uint n) 0 (Z.le_refl 0)) as V.
  change (Z.to_nat 0) with 0%nat in V. rewrite R in V.
  assert (F : (Z.of_nat n <? min_int) = false)
    by (apply Z.ltb_ge; unfold min_int; lia).
  assert (G : (max_int <? Z.of_nat n) = false) by (apply Z.ltb_ge; lia).
  destruct (Nat.to_uint n) as [|d|d|d|d|d|d|d|d|d|d]; [congruence | ..];
    unfold Atoi; cbn [DecimalString.NilEmpty.string_of_uint] in *;
    rewrite V; cbv iota; now rewrite F, G.
Qed.

Lemma Split_from_not_empty (sep s cur : string) (pending : nat) :
  Split_from pending cur s sep <> [].
Proof.
  revert pending cur. induction s as [|c s IH]; intros pending cur; simpl;
    [discriminate|].
  destruct pending; [|apply IH].
  destruct (HasPrefix (String c s) sep); [discriminate | apply IH].
Qed.

(** Up to the first ["#"], [strings.Split] gives what precedes it. *)
Lemma Split_from_hash (a rest cur : string) :
  mem "#" a = false ->
  Split_from 0 cur (a ++ "#" ++ rest) "#"
  = (cur ++ a) :: Split_from 0 "" rest "#".
Proof.
  revert cur. induction a as [|c a IH]; intros cur M.
  - simpl. now rewrite append_nil_r.
  - cbn [mem] in M. apply orb_false_iff in M as [E M].
    cbn [append Split_from HasPrefix]. rewrite E. cbn [andb].
    rewrite (IH _ M). now rewrite append_assoc.
Qed.


Lemma Contains_split (c : ascii) (s : string) :
  Contains s (String c "") ->
  exists a rest, s = a ++ String c "" ++ rest /\ mem c a = false.
Proof.
  induction s as [|x s IH]; intros H.
  - destruct H as [b [a H]]. destruct b; discriminate.
  - destruct (Ascii.eqb c x) eqn:E.
    + apply Ascii.eqb_eq in E as <-. now exists "", s.
    + apply Contains_cases in H as [H|H].
      * simpl in H. rewrite E in H. discriminate.
      * destruct (IH H) as (a & rest & -> & M).
        exists (String x a), rest. split; [reflexivity|].
        simpl. now rewrite E.
Qed.




Section MoreScraperFacts.

Context {X : XMLPath}.

(** ** Identity *)

(** X1.  The name that [getUserName] returns without an error neither
    starts nor ends with a newline or a space. *)
Theorem user_name_has_no_outer_blank (root : Node) (name : string) (c : ascii) :
  getUserName root = Done (name, None) ->
  first_byte name = Some c \/ last_byte name = Some c ->
  mem c (nl ++ " ") = false.
Proof.
  unfold getUserName.
  destruct (MustCompile userNameExpr) as [path|]; cbn [bind]; [|discriminate].
  unfold PathString. destruct (Iter path root) as [|n rest]; simpl negb;
    cbv iota; [discriminate|].
  intros H. injection H as <-. unfold Trim. intros [F|L].
  - eapply TrimLeft_first, TrimRight_first, F.
  - eapply TrimRight_last, L.
Qed.

(** X2.  A name anchor that holds newlines and spaces only is not a
    missing identity: [getUserName] returns the empty name without an
    error, and a profile fetch that returns for such a page returns a nil
    top-level error and an empty [UserName]. *)
Theorem blank_identity_is_accepted
    (app : App) (url : string) (root n : Node) (rest : list Node)
    (namePath : Path) :
  Compile userNameExpr = Some namePath ->
  GetHTMLRoot app url = inl root ->
  Iter namePath root = n :: rest ->
  all_in (nl ++ " ") (NodeString n) = true ->
  getUserName root = Done ("", None)
  /\ forall profile err,
       GetUserProfilePage app url = Done (profile, err) ->
       err = None /\ UserName profile = "".
Proof.
  intros C Hroot I B.
  assert (E : getUserName root = Done ("", None)).
  { rewrite (getUserName_found _ _ _ _ C I). unfold Trim.
    now rewrite (TrimLeft_all_in _ _ B). }
  split; [exact E|]. intros profile err. unfold GetUserProfilePage.
  rewrite Hroot, E. cbn [bind].
  destruct (getJoinDate root) as [[v1 e1]|]; cbn [bind]; [|discriminate].
  destruct (getTotalPosts root) as [[v2 e2]|]; cbn [bind]; [|discriminate].
  destruct (getReputation app _) as [[v3 e3]|]; cbn [bind]; [|discriminate].
  destruct (getUserBio root) as [[v4 e4]|]; cbn [bind]; [|discriminate].
  destruct (getFirstTenUserVisitorMessages root) as [[v5 e5]|]; cbn [bind];
    [|discriminate].
  intros H. injection H as <- <-. split; [reflexivity|].
  now destruct e1, e2, e3, e4, e5.
Qed.

(** ** Profile assembler *)

(** X3.  [GetUserProfilePage] returns a top-level error exactly when the
    page cannot be fetched or has no name anchor; it then returns it
    whatever the rest of the forum is, and the snapshot beside it is the
    zero value. *)
Theorem top_level_error_exactly_without_identity
    (app : App) (url : string) (namePath : Path) :
  Compile userNameExpr = Some namePath ->
  ((exists e, GetUserProfilePage app url = Done (zero_UserProfile, Some e))
   <-> (exists e, GetHTMLRoot app url = inr e)
       \/ (exists root, GetHTMLRoot app url = inl root /\ absent namePath root))
  /\ forall profile e,
       GetUserProfilePage app url = Done (profile, Some e) ->
       profile = zero_UserProfile.
Proof.
  intros C. split; [|intros profile e; apply GetUserProfilePage_error_zero].
  unfold GetUserProfilePage, getUserName, absent.
  rewrite (MustCompile_Some _ _ C). cbn [bind]. unfold PathString.
  destruct (GetHTMLRoot app url) as [root|err].
  - destruct (Iter namePath root) as [|n rest] eqn:I; simpl negb; cbv iota;
      cbn [bind].
    + split; [intros _; right; now exists root | intros _; eexists; reflexivity].
    + split.
      * destruct (getJoinDate root) as [[v1 e1]|]; cbn [bind];
          [|intros [e H]; discriminate].
        destruct (getTotalPosts root) as [[v2 e2]|]; cbn [bind];
          [|intros [e H]; discriminate].
        destruct (getReputation app _) as [[v3 e3]|]; cbn [bind];
          [|intros [e H]; discriminate].
        destruct (getUserBio root) as [[v4 e4]|]; cbn [bind];
          [|intros [e H]; discriminate].
        destruct (getFirstTenUserVisitorMessages root) as [[v5 e5]|];
          cbn [bind]; intros [e H]; discriminate.
      * intros [[e H]|[root' [H A]]]; [discriminate|].
        injection H as <-. congruence.
  - split; [intros _; left; now exists err | intros _; eexists; reflexivity].
Qed.

(** X4.  The error list of a snapshot has at most five entries, one per
    optional field at most, and it is empty beside a top-level error. *)
Theorem error_list_at_most_five
    (app : App) (url : string) (profile : UserProfile) (err : option error) :
  GetUserProfilePage app url = Done (profile, err) ->
  (List.length (Errors profile) <= 5)%nat
  /\ (err <> None -> Errors profile = []).
Proof.
  unfold GetUserProfilePage.
  destruct (GetHTMLRoot app url) as [root|e0].
  - destruct (getUserName root) as [[v0 [e0|]]|]; cbn [bind]; [| |discriminate].
    + intros H. injection H as <- <-. simpl. split; [lia | reflexivity].
    + destruct (getJoinDate root) as [[v1 e1]|]; cbn [bind]; [|discriminate].
      destruct (getTotalPosts root) as [[v2 e2]|]; cbn [bind]; [|discriminate].
      destruct (getReputation app _) as [[v3 e3]|]; cbn [bind]; [|discriminate].
      destruct (getUserBio root) as [[v4 e4]|]; cbn [bind]; [|discriminate].
      destruct (getFirstTenUserVisitorMessages root) as [[v5 e5]|]; cbn [bind];
        [|discriminate].
      intros H. injection H as <- <-. split; [|congruence].
      destruct e1, e2, e3, e4, e5; simpl; lia.
  - intros H. injection H as <- <-. simpl. split; [lia | reflexivity].
Qed.

(** ** Total posts *)

(** X5.  A thousands separator changes nothing: a count with a comma
    anywhere in it is read as the count without the comma, whether it is
    read with or without an error. *)
Theorem total_posts_ignores_separators
    (root1 root2 n1 n2 : Node) (rest1 rest2 : list Node) (path : Path)
    (a b : string) :
  Compile totalPostsExpr = Some path ->
  Iter path root1 = n1 :: rest1 ->
  Iter path root2 = n2 :: rest2 ->
  NodeString n1 = "Total Posts: " ++ a ++ "," ++ b ->
  NodeString n2 = "Total Posts: " ++ a ++ b ->
  getTotalPosts root1 = getTotalPosts root2.
Proof.
  intros C I1 I2 T1 T2.
  rewrite (getTotalPosts_eq _ root1 C), (getTotalPosts_eq _ root2 C), I1, I2,
    T1, T2, !TrimPrefix_app.
  do 2 f_equal. rewrite !Replace_app. reflexivity.
Qed.

(** X6.  A count that fits the type [int], printed in decimal after the
    label ["Total Posts: "], is read back as that count, without an
    error. *)
Theorem total_posts_of_decimal
    (root n : Node) (rest : list Node) (path : Path) (count : nat) :
  Compile totalPostsExpr = Some path ->
  Iter path root = n :: rest ->
  NodeString n = "Total Posts: " ++ decimal count ->
  Z.of_nat count <= max_int ->
  getTotalPosts root = Done (Z.of_nat count, None).
Proof.
  intros C I T B.
  rewrite (getTotalPosts_eq _ root C), I, T, TrimPrefix_app.
  rewrite Replace_without by apply decimal_no_comma.
  now rewrite (Atoi_decimal _ B).
Qed.

(** ** Visitor messages *)

(** X7.  A message list in which no block has both an author and a body is
    not an error: the result is the empty list with a nil error. *)
Theorem incomplete_blocks_give_no_message
    (root b : Node) (blocks : list Node) (mainPath userPath textPath : Path) :
  Compile mainExpr = Some mainPath ->
  Compile userExpr = Some userPath ->
  Compile textExpr = Some textPath ->
  Iter mainPath root = b :: blocks ->
  forallb (fun block => negb (complete userPath textPath block)) (b :: blocks)
  = true ->
  getFirstTenUserVisitorMessages root = Done ([], None).
Proof.
  intros Cm Cu Ct I F.
  rewrite (getFirstTenUserVisitorMessages_eq _ _ _ root Cm Cu Ct), I.
  cbv iota. do 2 f_equal. revert F. generalize (b :: blocks) as l.
  unfold messages_of_blocks.
  induction l as [|x l IH]; intros F; [reflexivity|].
  cbn [forallb] in F. apply andb_true_iff in F as [N F].
  cbn [filter]. apply negb_true_iff in N. rewrite N. now apply IH.
Qed.

(** ** Reputation *)

(** X8.  Once the listing, its first reference and the page of the
    reference have been obtained, [getReputation] panics on the index of the
    split reference exactly when the reference has no ["#"]. *)
Theorem reputation_panics_exactly_without_fragment
    (app : App) (id : string) (listing target h : Node) (hs : list Node)
    (hrefPath : Path) :
  GetHTMLRoot app (finduserURL id) = inl listing ->
  Compile listingHrefExpr = Some hrefPath ->
  Iter hrefPath listing = h :: hs ->
  GetHTMLRoot app (forumURL (NodeString h)) = inl target ->
  (getReputation app id = Panic (IndexOutOfRange 1 1)
   <-> ~ Contains (NodeString h) "#").
Proof.
  intros Hl C I Ht. split.
  - intros P K. apply Contains_split in K as (a & rest & E & M).
    revert P. unfold getReputation.
    rewrite Hl, (MustCompile_Some _ _ C). cbn [bind].
    rewrite (PathString_found _ _ _ _ I). simpl negb. cbv iota.
    rewrite Ht, E. unfold Split. rewrite (Split_from_hash _ _ _ M).
    destruct (Split_from 0 "" rest "#") as [|t ts] eqn:Q;
      [now apply Split_from_not_empty in Q|].
    assert (A : at_index (("" ++ a) :: t :: ts) 1 = Done t).
    { unfold at_index. cbn [List.length].
      destruct (Z.leb_spec (Z.of_nat (S (S (List.length ts)))) 1); [lia|].
      reflexivity. }
    rewrite A. cbn [bind]. unfold MustCompile.
    destruct (Compile (reputationExpr t)) as [path|]; cbn [bind];
      [|discriminate].
    destruct (PathString path target) as [rep [|]]; simpl negb; cbv iota;
      [|discriminate].
    destruct (Atoi _) as [r [e|]]; discriminate.
  - intros N. exact (getReputation_without_fragment _ _ _ _ _ _ _ Hl C I Ht N).
Qed.


(** ** Post locator *)

(** X10.  [getLatestPost] is all or nothing: beside an error the title and
    the message are both empty. *)
Theorem latest_post_is_all_or_nothing
    (app : App) (id title message : string) (e : error) :
  getLatestPost app id = Done (title, message, Some e) ->
  title = "" /\ message = "".
Proof.
  unfold getLatestPost.
  destruct (GetHTMLRoot app (finduserURL id)) as [root|err].
  - destruct (MustCompile titleExpr) as [tp|]; cbn [bind]; [|discriminate].
    destruct (PathString tp root) as [t [|]]; simpl negb; cbv iota.
    + destruct (MustCompile hrefExpr) as [hp|]; cbn [bind]; [|discriminate].
      destruct (PathString hp root) as [href [|]]; simpl negb; cbv iota.
      * destruct (GetHTMLRoot app (forumURL href)) as [target|err].
        -- destruct (slice_from _ _) as [post|]; cbn [bind]; [|discriminate].
           destruct (MustCompile (postExpr post)) as [pp|]; cbn [bind];
             [|discriminate].
           destruct (PathString pp target) as [m [|]]; simpl negb; cbv iota;
             intros H; [discriminate|].
           injection H as <- <- _. now split.
        -- intros H. injection H as <- <- _. now split.
      * intros H. injection H as <- <- _. now split.
    + intros H. injection H as <- <- _. now split.
  - intros H. injection H as <- <- _. now split.
Qed.


End MoreScraperFacts.

(** ** More of the change detector *)

Lemma observe_nonnegative (poll : UserProfile * option error) (st : PollState) :
  0 <= lastPostCount st ->
  lastPostCount (observe poll st)
  = Z.max (lastPostCount st) (TotalPosts (fst poll))
  /\ Z.of_nat (fnCalls (observe poll st)) - Z.of_nat (fnCalls st)
     <= lastPostCount (observe poll st) - lastPostCount st.
Proof.
  intros B. destruct poll as [profile err]. cbn [fst].
  assert (N : lastPostCount st <> sentinel) by (unfold sentinel; lia).
  destruct (observe_tracking profile err st N) as [Up Keep].
  destruct (Z.lt_ge_cases (lastPostCount st) (TotalPosts profile)) as [L|L].
  - destruct (Up L) as [-> ->]. lia.
  - destruct (Keep L) as [-> ->]. lia.
Qed.

(** X12.  Once the count is not negative, [fn] is called at most as many
    times as the count has grown: every call comes with an increase of
    [lastPostCount] by at least one. *)
Theorem calls_bounded_by_growth
    (polls : list (UserProfile * option error)) (st : PollState) :
  0 <= lastPostCount st ->
  Z.of_nat (fnCalls (observe_all polls st)) - Z.of_nat (fnCalls st)
  <= lastPostCount (observe_all polls st) - lastPostCount st.
Proof.
  revert st. induction polls as [|poll polls IH]; intros st B; simpl; [lia|].
  destruct (observe_nonnegative poll st B) as [M C].
  assert (B' : 0 <= lastPostCount (observe poll st)) by lia.
  specialize (IH _ B'). lia.
Qed.

(** X13.  Once the count is not negative, [lastPostCount] is the largest
    of the baseline and of the counts observed since, a failed fetch
    counting as zero. *)
Theorem lastPostCount_is_running_maximum
    (polls : list (UserProfile * option error)) (st : PollState) :
  0 <= lastPostCount st ->
  lastPostCount (observe_all polls st)
  = fold_left Z.max (map (fun poll => TotalPosts (fst poll)) polls)
              (lastPostCount st).
Proof.
  revert st. induction polls as [|poll polls IH]; intros st B; simpl;
    [reflexivity|].
  destruct (observe_nonnegative poll st B) as [M _].
  rewrite IH by lia. now rewrite M.
Qed.

Lemma observe_logged (poll : UserProfile * option error) (st : PollState) :
  logged (observe poll st)
  = (logged st + if failed_poll poll then 1 else 0)%nat.
Proof.
  destruct poll as [profile [e|]]; unfold observe, failed_poll; cbn [snd];
    destruct (lastPostCount st =? -1);
    try destruct (lastPostCount st <? TotalPosts profile); simpl; lia.
Qed.

(** X14.  The loop logs one error per failed fetch and goes on: after any
    run, the number of logged errors has grown by the number of polls that
    failed, in whatever state they were made. *)
Theorem every_failed_poll_is_logged
    (polls : list (UserProfile * option error)) (st : PollState) :
  logged (observe_all polls st)
  = (logged st + List.length (filter failed_poll polls))%nat.
Proof.
  revert st. induction polls as [|poll polls IH]; intros st; simpl; [lia|].
  rewrite IH, observe_logged. destruct (failed_poll poll); simpl; lia.
Qed.

Lemma observe_count_cases (poll : UserProfile * option error) (st : PollState) :
  lastPostCount (observe poll st) = lastPostCount st
  \/ lastPostCount (observe poll st) = TotalPosts (fst poll).
Proof.
  destruct poll as [profile err]. unfold observe. cbn [fst].
  destruct (lastPostCount st =? -1);
    try destruct (lastPostCount st <? TotalPosts profile); simpl; auto.
Qed.

(** X15.  [lastPostCount] only ever holds its starting value or a count
    taken from a poll: the loop computes no count of its own. *)
Theorem lastPostCount_is_an_observation
    (polls : list (UserProfile * option error)) (st : PollState) :
  lastPostCount (observe_all polls st) = lastPostCount st
  \/ exists poll,
       In poll polls
       /\ lastPostCount (observe_all polls st) = TotalPosts (fst poll).
Proof.
  revert st. induction polls as [|poll polls IH]; intros st; simpl;
    [now left|].
  destruct (IH (observe poll st)) as [E|[q [I E]]].
  - rewrite E. destruct (observe_count_cases poll st) as [K|K].
    + now left.
    + right. exists poll. split; [now left | exact K].
  - right. exists q. split; [now right | exact E].
Qed.

Section MoreDetectorFacts.

Context {X : XMLPath}.

(** X16.  A panic in one tick ends the polling: when the profile fetch of a
    tick panics, the loop panics with it, whatever the ticks before did and
    whatever the forum would answer afterwards. *)
Theorem panic_ends_polling
    (id : string) (before after : list App) (app : App)
    (polls : list (UserProfile * option error)) (st : PollState) (p : panic) :
  Forall2 (fun app poll => GetUserProfilePage app (memberURL ++ id) = Done poll)
          before polls ->
  GetUserProfilePage app (memberURL ++ id) = Panic p ->
  newPostAlert id (before ++ app :: after) st = Panic p.
Proof.
  intros H P. revert st.
  induction H as [|a poll before polls E _ IH]; intros st; simpl.
  - unfold tick. now rewrite P.
  - rewrite (tick_eq _ _ _ _ E). cbn [bind]. apply IH.
Qed.

(** ** The announcement *)

Lemma HasPrefix_Sprint (first : string) (others : list string) :
  HasPrefix (Sprint (first :: others)) first = true.
Proof. unfold Sprint. cbn [fold_right]. apply HasPrefix_app. Qed.

Lemma announce_cases (app : App) (ch : string) (sent sent' : list Message) :
  announce app ch sent = Done sent' ->
  exists extra,
    sent' = (sent ++ extra)%list
    /\ (List.length extra <= 1)%nat
    /\ Forall (fun m => channel m = ch
                        /\ HasPrefix (content m) announcement = true) extra
    /\ (extra = [] <->
        exists title message e,
          getLatestPost app "3" = Done (title, message, Some e)).
Proof.
  unfold announce.
  destruct (getLatestPost app "3") as [[[title message] [e|]]|]; cbn [bind];
    [| |discriminate]; intros H; injection H as <-.
  - exists []. rewrite app_nil_r.
    split; [reflexivity|]. split; [simpl; lia|]. split; [constructor|].
    split; [|reflexivity]. intros _. now exists title, message, e.
  - eexists. split; [reflexivity|]. split; [simpl; lia|]. split.
    + constructor; [|constructor]. split; [reflexivity|].
      exact (HasPrefix_Sprint announcement [title; message]).
    + split; [discriminate|]. intros (t & m & e & H). discriminate H.
Qed.

(** X17.  The function that [Start] gives to [newPostAlert] sends nothing
    when the latest post cannot be obtained, and otherwise one message to
    the primary channel, whose text is the format string as it is written,
    its two ["%s"] included, followed by the title and then the message:
    nothing is put in the place of the ["%s"]. *)
Theorem announce_sends_the_format_verbatim
    (app : App) (PrimaryChannel : string) (sent sent' : list Message) :
  announce app PrimaryChannel sent = Done sent' ->
  (exists title message e,
     getLatestPost app "3" = Done (title, message, Some e) /\ sent' = sent)
  \/ (exists title message,
        getLatestPost app "3" = Done (title, message, None)
        /\ sent' = (sent ++ [{| channel := PrimaryChannel;
                                content := announcement ++ title ++ message |}])%list
        /\ Contains (announcement ++ title ++ message) "%s**").
Proof.
  unfold announce.
  destruct (getLatestPost app "3") as [[[title message] [e|]]|]; cbn [bind];
    [| |discriminate]; intros H; injection H as <-.
  - left. now exists title, message, e.
  - right. exists title, message. split; [reflexivity|]. split.
    + unfold Sprint. cbn [fold_right]. now rewrite append_nil_r.
    + exists "**__NEW KALCOR POST__ IN TOPIC: ",
        (nl ++ "Post: %s" ++ title ++ message).
      reflexivity.
Qed.

(** X18.  The loop that [Start] runs polls as [newPostAlert] does, and
    sends at most one message per call of [fn], each to the primary channel
    and each starting with the format string. *)
Theorem alertLoop_sends_per_call
    (PrimaryChannel : string) (forum : list App) (st st' : PollState)
    (sent sent' : list Message) :
  alertLoop PrimaryChannel forum st sent = Done (st', sent') ->
  newPostAlert "3" forum st = Done st'
  /\ exists extra,
       sent' = (sent ++ extra)%list
       /\ (List.length extra + fnCalls st <= fnCalls st')%nat
       /\ Forall (fun m => channel m = PrimaryChannel
                           /\ HasPrefix (content m) announcement = true) extra.
Proof.
  revert st sent. induction forum as [|app forum IH]; intros st sent;
    cbn [alertLoop newPostAlert].
  - intros H. injection H as <- <-. split; [reflexivity|].
    exists []. rewrite app_nil_r.
    split; [reflexivity|]. split; [simpl; lia | constructor].
  - unfold tick.
    destruct (GetUserProfilePage app (memberURL ++ "3")) as [[profile err]|];
      cbn [bind]; [|discriminate].
    assert (Step : forall s1,
              observeWith (announce app PrimaryChannel) (profile, err) st sent
              = Done (observe (profile, err) st, s1) ->
              exists extra,
                s1 = (sent ++ extra)%list
                /\ (List.length extra + fnCalls st
                    <= fnCalls (observe (profile, err) st))%nat
                /\ Forall (fun m => channel m = PrimaryChannel
                                    /\ HasPrefix (content m) announcement = true)
                          extra).
    { intros s1. unfold observeWith, observe.
      destruct (lastPostCount st =? -1).
      - intros H. injection H as <-. exists []. rewrite app_nil_r.
        split; [reflexivity|]. split; [simpl; lia | constructor].
      - destruct (lastPostCount st <? TotalPosts profile).
        + destruct (announce app PrimaryChannel sent) as [s2|] eqn:A;
            cbn [bind]; [|discriminate].
          intros H. injection H as <-.
          destruct (announce_cases _ _ _ _ A) as (extra & -> & L & F & _).
          exists extra. split; [reflexivity|]. split; [simpl; lia | exact F].
        + intros H. injection H as <-. exists []. rewrite app_nil_r.
          split; [reflexivity|]. split; [simpl; lia | constructor]. }
    destruct (observeWith _ _ _ _) as [[st1 s1]|] eqn:W; cbn [bind];
      [|discriminate].
    assert (E1 : st1 = observe (profile, err) st).
    { revert W. unfold observeWith.
      destruct (lastPostCount st =? -1); [congruence|].
      destruct (lastPostCount st <? TotalPosts profile); [|congruence].
      destruct (announce app PrimaryChannel sent); cbn [bind]; congruence. }
    subst st1. intros H.
    destruct (IH _ _ H) as (N & extra2 & -> & L2 & F2).
    destruct (Step s1 eq_refl) as (extra1 & -> & L1 & F1).
    split; [exact N|].
    exists (extra1 ++ extra2)%list. rewrite app_assoc.
    split; [reflexivity|]. split.
    + rewrite length_app. lia.
    + apply Forall_app. now split.
Qed.

End MoreDetectorFacts.

(** ** These properties at work *)

(** X1 on a page whose name is surrounded by newlines and spaces. *)
Lemma user_name_has_no_outer_blank_witness :
  getUserName (Sample.padded_profile "7") = Done ("Kalcor", None)
  /\ mem "K" (nl ++ " ") = false /\ mem "r" (nl ++ " ") = false.
Proof.
  split; [reflexivity|]. split.
  - exact (user_name_has_no_outer_blank (X:=Fake.evaluator)
             (Sample.padded_profile "7") "Kalcor" "K" eq_refl
             (or_introl eq_refl)).
  - exact (user_name_has_no_outer_blank (X:=Fake.evaluator)
             (Sample.padded_profile "7") "Kalcor" "r" eq_refl
             (or_intror eq_refl)).
Defined.

(** X2 on a page whose name anchor holds a space, a newline and a space. *)
Lemma blank_identity_is_accepted_witness :
  all_in (nl ++ " ") (" " ++ nl ++ " ") = true
  /\ getUserName Sample.blank_profile = Done ("", None).
Proof.
  split; [reflexivity|].
  exact (proj1 (blank_identity_is_accepted (X:=Fake.evaluator)
                  (Fake.forum [(Fake.profileURL, Sample.blank_profile)])
                  Fake.profileURL Sample.blank_profile
                  (Fake.leaf (" " ++ nl ++ " ")) [] userNameExpr
                  eq_refl eq_refl eq_refl eq_refl)).
Defined.

(** X3 on a page without the name anchor. *)
Lemma top_level_error_exactly_without_identity_witness :
  absent (X:=Fake.evaluator) userNameExpr Sample.anonymous_profile
  /\ exists e,
       GetUserProfilePage Sample.anonymous Fake.profileURL
       = Done (zero_UserProfile, Some e).
Proof.
  split; [reflexivity|].
  apply (proj1 (top_level_error_exactly_without_identity (X:=Fake.evaluator)
                  Sample.anonymous Fake.profileURL userNameExpr eq_refl)).
  right. exists Sample.anonymous_profile. split; reflexivity.
Defined.

(** X4 on a page with the name anchor only: five entries. *)
Lemma error_list_at_most_five_witness :
  exists profile,
    GetUserProfilePage Fake.bare Fake.profileURL = Done (profile, None)
    /\ (List.length (Errors profile) <= 5)%nat.
Proof.
  eexists. split; [reflexivity|].
  exact (proj1 (error_list_at_most_five (X:=Fake.evaluator)
                  Fake.bare Fake.profileURL _ _ eq_refl)).
Defined.

(** X5 on ["12,345"] and ["12345"]. *)
Lemma total_posts_ignores_separators_witness :
  getTotalPosts (Fake.counted_profile "12,345")
  = getTotalPosts (Fake.counted_profile "12345")
  /\ getTotalPosts (Fake.counted_profile "12345") = Done (12345, None).
Proof.
  split; [|reflexivity].
  exact (total_posts_ignores_separators (X:=Fake.evaluator)
           (Fake.counted_profile "12,345") (Fake.counted_profile "12345")
           (Fake.leaf "Total Posts: 12,345") (Fake.leaf "Total Posts: 12345")
           [] [] totalPostsExpr "12" "345"
           eq_refl eq_refl eq_refl eq_refl eq_refl).
Defined.

(** X6 on the count 4321. *)
Lemma total_posts_of_decimal_witness :
  decimal 4321 = "4321"
  /\ getTotalPosts (Fake.counted_profile "4321") = Done (4321, None).
Proof.
  split; [reflexivity|].
  refine (total_posts_of_decimal (X:=Fake.evaluator)
            (Fake.counted_profile "4321") (Fake.leaf "Total Posts: 4321")
            [] totalPostsExpr 4321 eq_refl eq_refl eq_refl _).
  vm_compute. discriminate.
Defined.

(** X7 on a message list of two blocks that have an author and no body. *)
Lemma incomplete_blocks_give_no_message_witness :
  List.length (Iter (XMLPath:=Fake.evaluator) mainExpr
                 (Sample.padded_profile "7")) = 2%nat
  /\ getFirstTenUserVisitorMessages (Sample.padded_profile "7")
     = Done ([], None).
Proof.
  split; [reflexivity|].
  exact (incomplete_blocks_give_no_message (X:=Fake.evaluator)
           (Sample.padded_profile "7")
           (Fake.Elem "" [(userExpr, [Fake.leaf "ann"])])
           [Fake.Elem "" [(userExpr, [Fake.leaf "bob"])]]
           mainExpr userExpr textExpr
           eq_refl eq_refl eq_refl eq_refl eq_refl).
Defined.

(** X8 on a reference without ["#"]. *)
Lemma reputation_panics_exactly_without_fragment_witness :
  ~ Contains "showthread.php?p=77" "#"
  /\ getReputation Fake.plain_reference "3" = Panic (IndexOutOfRange 1 1).
Proof.
  assert (N : ~ Contains "showthread.php?p=77" "#") by now apply Index_absent.
  split; [exact N|].
  exact (proj2 (reputation_panics_exactly_without_fragment (X:=Fake.evaluator)
                  Fake.plain_reference "3"
                  (Fake.Elem "" [(listingHrefExpr,
                                  [Fake.leaf "showthread.php?p=77"])])
                  (Fake.leaf "a thread") (Fake.leaf "showthread.php?p=77") []
                  listingHrefExpr eq_refl eq_refl eq_refl eq_refl) N).
Defined.


(** X10 on a forum that cannot be fetched. *)
Lemma latest_post_is_all_or_nothing_witness :
  exists title message e,
    getLatestPost Fake.down "3" = Done (title, message, Some e)
    /\ title = "" /\ message = "".
Proof.
  do 3 eexists. split; [reflexivity|].
  exact (latest_post_is_all_or_nothing (X:=Fake.evaluator)
           Fake.down "3" _ _ _ eq_refl).
Defined.


(** X12 on the run 500, a failed fetch, 501, 503 from the baseline 500: two
    calls for a growth of three. *)
Lemma calls_bounded_by_growth_witness :
  observe_all [Fake.seen 500; Fake.failed; Fake.seen 501; Fake.seen 503]
              (Fake.tracking 500)
  = {| lastPostCount := 503; fnCalls := 2; logged := 1 |}
  /\ 2 - 0 <= 503 - 500.
Proof.
  split; [reflexivity|].
  refine (calls_bounded_by_growth
            [Fake.seen 500; Fake.failed; Fake.seen 501; Fake.seen 503]
            (Fake.tracking 500) _).
  vm_compute. discriminate.
Defined.

(** X13 on the same run. *)
Lemma lastPostCount_is_running_maximum_witness :
  lastPostCount
    (observe_all [Fake.seen 500; Fake.failed; Fake.seen 501; Fake.seen 503]
                 (Fake.tracking 500))
  = Z.max (Z.max (Z.max (Z.max 500 500) 0) 501) 503.
Proof.
  refine (lastPostCount_is_running_maximum
            [Fake.seen 500; Fake.failed; Fake.seen 501; Fake.seen 503]
            (Fake.tracking 500) _).
  vm_compute. discriminate.
Defined.

(** X16 on three ticks, the listing of the second one holding a reference
    without ["#"]. *)
Lemma panic_ends_polling_witness :
  newPostAlert "3" [Fake.showing "500"; Fake.plain_reference; Fake.showing "501"]
               initial
  = Panic (IndexOutOfRange 1 1).
Proof.
  eapply (panic_ends_polling (X:=Fake.evaluator) "3"
            [Fake.showing "500"] [Fake.showing "501"] Fake.plain_reference).
  - constructor; [reflexivity | constructor].
  - reflexivity.
Defined.

(** X17 on a listing that leads to a post. *)
Lemma announce_sends_the_format_verbatim_witness :
  announce (Fake.listing "Re: news" "thread.php?t=9#post123" Fake.thread_page)
           "general" []
  = Done [{| channel := "general";
             content := announcement ++ "Re: news" ++ "the newest post" |}]
  /\ Contains (announcement ++ "Re: news" ++ "the newest post") "%s**".
Proof.
  split; [reflexivity|].
  destruct (announce_sends_the_format_verbatim (X:=Fake.evaluator)
              (Fake.listing "Re: news" "thread.php?t=9#post123"
                            Fake.thread_page)
              "general" [] _ eq_refl)
    as [(t & m & e & G & _)|(t & m & G & _ & K)]; [discriminate G|].
  injection G as <- <-. exact K.
Defined.

(** X18 on two ticks, the profile showing 500 and then 501 posts. *)
Lemma alertLoop_sends_per_call_witness :
  newPostAlert "3"
    [Sample.posting "500" "Re: news" "thread.php?t=9#post123" Fake.thread_page;
     Sample.posting "501" "Re: news" "thread.php?t=9#post123" Fake.thread_page]
    initial
  = Done {| lastPostCount := 501; fnCalls := 1; logged := 0 |}.
Proof.
  exact (proj1 (alertLoop_sends_per_call (X:=Fake.evaluator) "general"
                  [Sample.posting "500" "Re: news" "thread.php?t=9#post123"
                                  Fake.thread_page;
                   Sample.posting "501" "Re: news" "thread.php?t=9#post123"
                                  Fake.thread_page]
                  initial _ [] _ eq_refl)).
Defined.
